(** * Health Survey API (backend/main.py): a shallow embedding

    The service keeps two CSV tables on disk, the employee roster
    (data/employees.csv) and the survey responses
    (data/survey_responses.csv), and serves them through FastAPI handlers.

    Modelling choices, all visible in the definitions below:
    - a CSV file is modelled by the table it holds, so that [to_csv] followed
      by [read_csv] is the identity on tables; what [read_csv] makes of text
      that spells a missing value or a number is outside the model;
    - Python exceptions are values of [exn]; a handler is a computation in
      the monad [M], which threads the file system and stops at the first
      [Raise], keeping the file system as it was at that point;
    - Python and numpy floats are modelled by the rationals they denote,
      with exact arithmetic, and how a float prints is a parameter of the
      CSV writer; what is stated of a computed average is stated for whole
      numbers in a range where the arithmetic of float64 is exact too;
    - [datetime.now()] is an argument of the handler that reads it;
    - text is a Rocq [string]; all lengths are counted in characters. *)

From Stdlib Require Import String Ascii List Bool Arith ZArith QArith Qround Lia.
From Stdlib Require Import DecimalString.
From Stdlib Require Import Lqa.
Import ListNotations.

Local Open Scope string_scope.
Local Open Scope list_scope.

(** ** Python builtins used by the handlers *)

Module Py.

(** [width] copies of the character 0. *)
Fixpoint zeros (n : nat) : string :=
  match n with
  | O => EmptyString
  | S k => String "0" (zeros k)
  end.

Definition is_sign (c : ascii) : bool :=
  (Ascii.eqb c "+" || Ascii.eqb c "-")%bool.

(** [str.zfill(width)]: a string of [width] or more characters is
    returned as it is; a shorter one is filled with zeros on the left,
    after its leading sign if it has one. *)
Definition zfill (width : nat) (s : string) : string :=
  let n := String.length s in
  if (width <=? n)%nat then s
  else match s with
       | String c rest =>
           if is_sign c then String c (zeros (width - n) ++ rest)
           else zeros (width - n) ++ s
       | EmptyString => zeros (width - n)
       end.

(** Round to the nearest integer, ties to the even one. *)
Definition rint (q : Q) : Z :=
  let f := Qfloor q in
  match Qcompare (q - inject_Z f) (1 # 2) with
  | Lt => f
  | Gt => (f + 1)%Z
  | Eq => if Z.even f then f else (f + 1)%Z
  end.

(** [round(x, 1)]: the nearest multiple of one tenth, ties to the even
    one, in lowest terms. *)
Definition round1 (q : Q) : Q := Qred (inject_Z (rint (q * 10)) / 10).

(** [x // 12] and [x % 12] on floats. *)
Definition floordiv12 (q : Q) : Z := Qfloor (q / 12).
Definition mod12 (q : Q) : Q := Qred (q - 12 * inject_Z (floordiv12 q)).

(** [x in xs] on a list of strings. *)
Definition contains (x : string) (xs : list string) : bool :=
  existsb (String.eqb x) xs.

(** [str(int)]. *)
Definition str_int (z : Z) : string := NilZero.string_of_int (Z.to_int z).

(** A character is a decimal digit. *)
Definition is_digit (c : ascii) : bool :=
  let n := nat_of_ascii c in ((48 <=? n) && (n <=? 57))%nat%bool.

Fixpoint is_decimal (s : string) : bool :=
  match s with
  | EmptyString => true
  | String c rest => (is_digit c && is_decimal rest)%bool
  end.

End Py.

(** ** Exceptions *)

(** The exceptions the handlers raise or catch.  The [detail] of an
    [HTTPException] is either a literal or an f-string that ends in
    [str(e)] for a caught exception [e]; the f-string is kept as a term. *)
Inductive exn : Type :=
| HTTPException (status_code : Z) (detail : message)
| FileNotFoundError
| TypeError
with message : Type :=
| Lit (s : string)
| FStr (prefix : string) (e : exn).

Inductive result (A : Type) : Type :=
| Return (a : A)
| Raise (e : exn).
Arguments Return {A} a.
Arguments Raise {A} e.

(** The status a client sees for a handler's outcome: that of the
    [HTTPException] raised, 500 for any other exception, and 200 for a
    returned value, provided the framework can encode the value as JSON
    (it cannot encode a missing float). *)
Definition http_status {A : Type} (r : result A) : Z :=
  match r with
  | Return _ => 200
  | Raise (HTTPException s _) => s
  | Raise _ => 500
  end.

(** ** Tables *)

Module Pd.

(** A cell of a table read by [read_csv] or built from a dict. *)
Inductive cell : Type :=
| NaN
| Str (s : string)
| Int (z : Z)
| Float (q : Q).

(** A dict from column name to value, in insertion order. *)
Definition record : Type := list (string * cell).

Record DataFrame : Type := mkDataFrame {
  columns : list string;
  rows : list record
}.

Fixpoint get (c : string) (r : record) : cell :=
  match r with
  | [] => NaN
  | (k, v) :: r' => if String.eqb k c then v else get c r'
  end.

(** A record laid out on the columns [cols]; a missing value is [NaN]. *)
Definition align (cols : list string) (r : record) : record :=
  map (fun c => (c, get c r)) cols.

(** [df.reindex(columns=cols)]. *)
Definition reindex (cols : list string) (df : DataFrame) : DataFrame :=
  mkDataFrame cols (map (align cols) (rows df)).

(** The index union pandas takes, first seen first. *)
Fixpoint union (xs ys : list string) : list string :=
  match ys with
  | [] => xs
  | y :: ys' =>
      if Py.contains y xs then union xs ys' else union (xs ++ [y]) ys'
  end.

(** [pd.DataFrame(records)]. *)
Definition from_records (rs : list record) : DataFrame :=
  let cols := fold_left (fun acc r => union acc (map fst r)) rs [] in
  mkDataFrame cols (map (align cols) rs).

(** [pd.concat([a, b], ignore_index=True)]. *)
Definition concat (a b : DataFrame) : DataFrame :=
  let cols := union (columns a) (columns b) in
  mkDataFrame cols (map (align cols) (rows a ++ rows b)).

(** [pd.DataFrame(columns=headers)]. *)
Definition with_columns (headers : list string) : DataFrame :=
  mkDataFrame headers [].

(** [df.empty]: some axis has length zero. *)
Definition empty (df : DataFrame) : bool :=
  match columns df, rows df with
  | [], _ => true
  | _, [] => true
  | _, _ => false
  end.

(** [df.to_dict('records')]. *)
Definition to_dict_records (df : DataFrame) : list record :=
  map (align (columns df)) (rows df).

(** [c in df.columns]. *)
Definition has_column (c : string) (df : DataFrame) : bool :=
  Py.contains c (columns df).

(** [df[c]]. *)
Definition series (c : string) (df : DataFrame) : list cell :=
  map (get c) (rows df).

End Pd.
Import Pd.

(** ** Data models *)

Record Employee : Type := mkEmployee {
  EmployeeNumber : string;
  EmployeeName : string
}.

Record SurveySubmission : Type := mkSurveySubmission {
  employeeNumber : string;
  employeeName : string;
  gender : string;
  age : Z;
  waistCircumference : Q;
  heightFeet : Z;
  heightInches : Z;
  weight : Q;
  bmi : Q;
  bmiCategory : string
}.

(** ** The two files *)

(** A row of the roster as [read_csv] returns it: the number is read as
    text, and a cell left blank is missing ([None]). *)
Definition roster_row : Type := (option string * option string)%type.

(** [None] is a file that does not exist. *)
Record FS : Type := mkFS {
  EMPLOYEES_CSV : option (list roster_row);
  SURVEY_DATA_CSV : option DataFrame
}.

(** ** Handlers as computations over the file system *)

Definition M (A : Type) : Type := FS -> result A * FS.

Definition ret {A : Type} (a : A) : M A := fun fs => (Return a, fs).

Definition raise {A : Type} (e : exn) : M A := fun fs => (Raise e, fs).

Definition bind {A B : Type} (m : M A) (k : A -> M B) : M B :=
  fun fs =>
    match m fs with
    | (Return a, fs') => k a fs'
    | (Raise e, fs') => (Raise e, fs')
    end.

(** [try: body  except ...: handler]. *)
Definition try_except {A : Type} (body : M A) (handler : exn -> M A) : M A :=
  fun fs =>
    match body fs with
    | (Return a, fs') => (Return a, fs')
    | (Raise e, fs') => handler e fs'
    end.

Notation "x <- m ;; k" := (bind m (fun x => k))
  (at level 61, m at next level, right associativity).
Notation "m ;;; k" := (bind m (fun _ => k))
  (at level 61, right associativity).

(** [os.path.exists] on each of the two paths. *)
Definition employees_exists : M bool :=
  fun fs =>
    (Return match EMPLOYEES_CSV fs with Some _ => true | None => false end, fs).

Definition survey_exists : M bool :=
  fun fs =>
    (Return match SURVEY_DATA_CSV fs with Some _ => true | None => false end, fs).

(** [pd.read_csv] on each of the two paths. *)
Definition read_employees : M (list roster_row) :=
  fun fs =>
    match EMPLOYEES_CSV fs with
    | Some t => (Return t, fs)
    | None => (Raise FileNotFoundError, fs)
    end.

Definition read_survey : M DataFrame :=
  fun fs =>
    match SURVEY_DATA_CSV fs with
    | Some df => (Return df, fs)
    | None => (Raise FileNotFoundError, fs)
    end.

(** [df.to_csv(SURVEY_DATA_CSV, index=False)]: the file holds the table
    written.  The next [read_csv] returns a table with the same columns
    and as many rows, and the same EmployeeNumber text; how it types the
    other cells again (text that spells a missing value, whole numbers in
    a column of floats) is not modelled. *)
Definition write_survey (df : DataFrame) : M unit :=
  fun fs => (Return tt, mkFS (EMPLOYEES_CSV fs) (Some df)).

Definition write_employees (t : list roster_row) : M unit :=
  fun fs => (Return tt, mkFS (Some t) (SURVEY_DATA_CSV fs)).

(** [str(row[...])] on a roster cell: a missing cell prints as nan. *)
Definition str_cell (c : option string) : string :=
  match c with
  | Some s => s
  | None => "nan"
  end.

Definition load_row (r : roster_row) : Employee :=
  mkEmployee (Py.zfill 8 (str_cell (fst r))) (str_cell (snd r)).

Definition load_employees : M (list Employee) :=
  try_except
    (ex <- employees_exists ;;
     if negb ex
     then raise (HTTPException 404 (Lit "Employee data file not found"))
     else
       df <- read_employees ;;
       ret (map load_row df))
    (fun e => raise (HTTPException 500 (FStr "Error loading employee data: " e))).

Definition headers : list string :=
  [ "SubmissionDate"; "EmployeeNumber"; "EmployeeName"; "Gender"; "Age";
    "Waist Circumference (inches)"; "Height - Feet"; "Height - Inches";
    "Weight (lb)"; "BMI"; "BMI Category" ].

Definition initialize_survey_csv : M unit :=
  ex <- survey_exists ;;
  if negb ex then write_survey (with_columns headers) else ret tt.

Definition sample_data : list roster_row :=
  map (fun p => (Some (fst p), Some (snd p)))
  [ ("00071215", "Pyae Phyo Latt"); ("00070782", "Ni Ni Aung");
    ("00071156", "Ayar Lwin"); ("00070098", "Aye Aye Tun");
    ("00071182", "Myo Min Min Wai"); ("00070039", "Kyaw Zayar Myint");
    ("00070961", "Min Soe Moe Naung"); ("00070671", "Tin Maung Htwe");
    ("00070459", "San San Aung"); ("00070081", "Nilar");
    ("00070291", "Ohnmar"); ("00070783", "Ko Ko Zin");
    ("00070314", "Zaw Zaw Oo @ Win Aung"); ("00070036", "Theingi Aung");
    ("00070618", "Min Hein Kyaw"); ("00071216", "Kyaw Soe Moe");
    ("00071157", "Nwet Nwet San"); ("00070598", "Tin Tun Aung");
    ("00070292", "Than Than Nwet"); ("00070129", "Thandar Win");
    ("00070725", "Mo Mo Phone Maw @ Moh Moh Naing");
    ("00070126", "Su Sandy Linn"); ("00071168", "Aung Ko Ko");
    ("00070798", "Htin Lin Oo"); ("00071214", "Zin Ko Myint");
    ("00071239", "Aung Thu Lwin"); ("00070785", "Ko Ko Htet");
    ("00070636", "Nyein Nyein Hlaing"); ("00070792", "Zaw Win");
    ("00071577", "Phyo Wai Maung"); ("00070944", "Than Htike Oo");
    ("00070128", "Khine Nyo Tun"); ("00071201", "Kyaw Soe Win");
    ("00070730", "Yan Naing"); ("00071131", "Wai Mar");
    ("00071709", "Htoo Yadanar Kyaw"); ("00071002", "Soe San");
    ("00070962", "Zin Thu Ma Ma Aung"); ("00071909", "Aung Kyaw Soe") ].

Definition startup_event : M unit :=
  initialize_survey_csv ;;;
  ex <- employees_exists ;;
  if negb ex then write_employees sample_data else ret tt.

Definition get_employees : M (list Employee) := load_employees.

(** The dict [survey_data] of [submit_survey]; [now] is
    [datetime.now().strftime('%Y-%m-%d %H:%M:%S')]. *)
Definition survey_data (now : string) (formatted_emp_num : string)
    (survey : SurveySubmission) : record :=
  [ ("SubmissionDate", Str now);
    ("EmployeeNumber", Str formatted_emp_num);
    ("EmployeeName", Str (employeeName survey));
    ("Gender", Str (gender survey));
    ("Age", Int (age survey));
    ("Waist Circumference (inches)", Float (waistCircumference survey));
    ("Height - Feet", Int (heightFeet survey));
    ("Height - Inches", Int (heightInches survey));
    ("Weight (lb)", Float (weight survey));
    ("BMI", Float (Py.round1 (bmi survey)));
    ("BMI Category", Str (bmiCategory survey)) ].

Record SubmitResponse : Type := mkSubmitResponse {
  message_ : string;
  data : record
}.

Definition submit_survey (now : string) (survey : SurveySubmission)
    : M SubmitResponse :=
  try_except
    (employees <- load_employees ;;
     let employee_numbers := map EmployeeNumber employees in
     let formatted_emp_num := Py.zfill 8 (employeeNumber survey) in
     if negb (Py.contains formatted_emp_num employee_numbers)
     then raise (HTTPException 400 (Lit "Invalid employee number"))
     else
       let sd := survey_data now formatted_emp_num survey in
       file_exists <- survey_exists ;;
       updated_df <-
         (if file_exists
          then
            existing_df <- read_survey ;;
            ret (concat existing_df (from_records [sd]))
          else ret (from_records [sd])) ;;
       write_survey updated_df ;;;
       ret (mkSubmitResponse "Survey submitted successfully" sd))
    (fun e => raise (HTTPException 500 (FStr "Error submitting survey: " e))).

Definition get_survey_responses : M (list record) :=
  try_except
    (ex <- survey_exists ;;
     if negb ex then ret []
     else
       df <- read_survey ;;
       ret (to_dict_records df))
    (fun e =>
       raise (HTTPException 500 (FStr "Error retrieving survey responses: " e))).

(** ** Statistics *)

Module Stats.

Definition isna (c : cell) : bool :=
  match c with NaN => true | _ => false end.

(** [s.isna().all()]. *)
Definition all_na (s : list cell) : bool := forallb isna s.

Definition is_text (c : cell) : bool :=
  match c with Str _ => true | _ => false end.

Definition number (c : cell) : option Q :=
  match c with
  | Int z => Some (inject_Z z)
  | Float q => Some q
  | _ => None
  end.

(** The values of a series that are not missing. *)
Fixpoint present (s : list cell) : list Q :=
  match s with
  | [] => []
  | c :: s' =>
      match number c with
      | Some q => q :: present s'
      | None => present s'
      end
  end.

Definition total (qs : list Q) : Q := fold_right Qplus 0 qs.

(** The sum over the count, exact.  The float64 mean of pandas agrees
    with it on whole numbers in the range of [whole_number] and differs
    from it by rounding errors otherwise. *)
Definition arithmetic_mean (qs : list Q) : Q :=
  total qs / inject_Z (Z.of_nat (length qs)).

(** [s.mean()]: missing values are skipped, a series with nothing left
    has mean [NaN], and a series that holds text raises. *)
Definition mean (s : list cell) : result cell :=
  if existsb is_text s then Raise TypeError
  else match present s with
       | [] => Return NaN
       | qs => Return (Float (arithmetic_mean qs))
       end.

(** [round(x, 1)] on what [mean] returns. *)
Definition round1 (c : cell) : cell :=
  match c with
  | Float q => Float (Py.round1 q)
  | Int z => Int z
  | other => other
  end.

(** [round(df[c].mean(), 1) if c in df.columns and not
    df[c].isna().all() else 0]. *)
Definition average (c : string) (df : DataFrame) : result cell :=
  if (has_column c df && negb (all_na (series c df)))%bool
  then match mean (series c df) with
       | Return m => Return (round1 m)
       | Raise e => Raise e
       end
  else Return (Int 0).

(** One entry of [df['Height - Feet'] * 12 + df['Height - Inches']]: a
    missing part makes the entry missing, and text in either part ends in
    a [TypeError], in the sum or in the mean taken of it.  The arithmetic
    is exact; that of pandas is 64-bit and wraps around outside the range
    of [whole_number]. *)
Definition height_entry (r : record) : result cell :=
  match get "Height - Feet" r, get "Height - Inches" r with
  | Str _, _ | _, Str _ => Raise TypeError
  | NaN, _ | _, NaN => Return NaN
  | Int f, Int i => Return (Int (f * 12 + i))
  | Int f, Float i => Return (Float (inject_Z f * 12 + i))
  | Float f, Int i => Return (Float (f * 12 + inject_Z i))
  | Float f, Float i => Return (Float (f * 12 + i))
  end.

Fixpoint height_series (rs : list record) : result (list cell) :=
  match rs with
  | [] => Return []
  | r :: rs' =>
      match height_entry r with
      | Raise e => Raise e
      | Return c =>
          match height_series rs' with
          | Raise e => Raise e
          | Return cs => Return (c :: cs)
          end
      end
  end.

(** [x > 0] for the rounded average. *)
Definition positive (c : cell) : bool :=
  match number c with
  | Some q => match Qcompare 0 q with Lt => true | _ => false end
  | None => false
  end.

(** [int(avg // 12) if avg > 0 else 0]. *)
Definition feet_of (avg : cell) : Z :=
  match number avg with
  | Some q => if positive avg then Py.floordiv12 q else 0%Z
  | None => 0%Z
  end.

(** [round(avg % 12, 1) if avg > 0 else 0]. *)
Definition inches_of (avg : cell) : cell :=
  match number avg with
  | Some q => if positive avg then Float (Py.round1 (Py.mod12 q)) else Int 0
  | None => Int 0
  end.

(** The pair [(avg_height_feet, avg_height_inches)]. *)
Definition average_height (df : DataFrame) : result (Z * cell) :=
  if (has_column "Height - Feet" df && has_column "Height - Inches" df)%bool
  then
    match height_series (rows df) with
    | Raise e => Raise e
    | Return total_height_inches =>
        match (if negb (all_na total_height_inches)
               then match mean total_height_inches with
                    | Return m => Return (round1 m)
                    | Raise e => Raise e
                    end
               else Return (Int 0)) with
        | Raise e => Raise e
        | Return avg_height_total_inches =>
            Return (feet_of avg_height_total_inches,
                    inches_of avg_height_total_inches)
        end
    end
  else Return (0%Z, Int 0).

Definition cell_eqb (a b : cell) : bool :=
  match a, b with
  | NaN, NaN => true
  | Str s, Str t => String.eqb s t
  | Int x, Int y => Z.eqb x y
  | Float p, Float q => Qeq_bool p q
  | Int x, Float q | Float q, Int x => Qeq_bool (inject_Z x) q
  | _, _ => false
  end.

Fixpoint bump (c : cell) (acc : list (cell * nat)) : list (cell * nat) :=
  match acc with
  | [] => [(c, 1%nat)]
  | (k, n) :: acc' =>
      if cell_eqb k c then (k, S n) :: acc' else (k, n) :: bump c acc'
  end.

(** [s.value_counts().to_dict()]: missing values are not counted.  A
    dict is compared key by key, so the order of the pairs is that of
    first appearance here. *)
Definition value_counts (s : list cell) : list (cell * nat) :=
  fold_left (fun acc c => if isna c then acc else bump c acc) s [].

End Stats.

Record Averages : Type := mkAverages {
  avg_age : cell;
  avg_bmi : cell;
  avg_waist_circumference_inches : cell;
  avg_weight_lb : cell;
  avg_height_feet : Z;
  avg_height_inches : cell
}.

(** The two shapes [get_survey_statistics] returns.  The date range and
    the file size, which no average depends on, are left out of [Full]. *)
Inductive Statistics : Type :=
| NoData (total_responses : Z) (msg : string)
| Full (total_responses : nat)
       (gender_distribution : list (cell * nat))
       (averages : Averages)
       (bmi_categories : list (cell * nat)).

Definition lift {A : Type} (r : result A) : M A := fun fs => (r, fs).

Definition get_survey_statistics : M Statistics :=
  try_except
    (ex <- survey_exists ;;
     if negb ex then ret (NoData 0 "No survey data available")
     else
       df <- read_survey ;;
       if Pd.empty df then ret (NoData 0 "No survey responses available")
       else
         let total_responses := length (rows df) in
         let gender_distribution :=
           if has_column "Gender" df
           then Stats.value_counts (series "Gender" df) else [] in
         a_age <- lift (Stats.average "Age" df) ;;
         a_bmi <- lift (Stats.average "BMI" df) ;;
         let bmi_categories :=
           if has_column "BMI Category" df
           then Stats.value_counts (series "BMI Category" df) else [] in
         a_waist <- lift (Stats.average "Waist Circumference (inches)" df) ;;
         a_weight <- lift (Stats.average "Weight (lb)" df) ;;
         h <- lift (Stats.average_height df) ;;
         ret (Full total_responses gender_distribution
                (mkAverages a_age a_bmi a_waist a_weight (fst h) (snd h))
                bmi_categories))
    (fun e =>
       raise (HTTPException 500 (FStr "Error retrieving survey statistics: " e))).

(** ** Export *)

(** What the [csv] writer behind [to_csv] does with one field. *)
Module Csv.

Definition dquote : ascii := "034"%char.
Definition newline : ascii := "010"%char.
Definition creturn : ascii := "013"%char.

(** Every quote character inside a field is written twice. *)
Fixpoint escape (s : string) : string :=
  match s with
  | EmptyString => EmptyString
  | String c rest =>
      if Ascii.eqb c dquote
      then String dquote (String dquote (escape rest))
      else String c (escape rest)
  end.

Definition quoted (s : string) : string :=
  String dquote (escape s ++ String dquote EmptyString).

Fixpoint special (s : string) : bool :=
  match s with
  | EmptyString => false
  | String c rest =>
      (Ascii.eqb c "," || Ascii.eqb c dquote || Ascii.eqb c newline
       || Ascii.eqb c creturn || special rest)%bool
  end.

(** [quoting=1] is [csv.QUOTE_ALL]; the default, [csv.QUOTE_MINIMAL],
    quotes a field only when it holds a special character. *)
Definition field (quoting : Z) (s : string) : string :=
  if (quoting =? 1)%Z then quoted s
  else if special s then quoted s else s.

(** The fields of a row, separated by commas and ended by a newline. *)
Definition line (quoting : Z) (fields : list string) : string :=
  String.concat "," (map (field quoting) fields) ++ String newline EmptyString.

Definition write (quoting : Z) (table : list (list string)) : string :=
  String.concat EmptyString (map (line quoting) table).



End Csv.

(** A sheet of a workbook: its cells, row by row.  Fonts, fills, borders,
    widths and heights do not change what the cells hold and are left
    out. *)
Record Worksheet : Type := mkWorksheet {
  sheet_name : string;
  sheet_cells : list (list cell)
}.

(** [df.to_excel(writer, sheet_name=name, index=False, startrow=0)]: the
    column names, then one row per record. *)
Definition to_excel (name : string) (df : DataFrame) : Worksheet :=
  mkWorksheet name
    (map Str (columns df)
     :: map (fun r => map (fun c => get c r) (columns df)) (rows df)).

Record StreamingResponse (A : Type) : Type := mkStreamingResponse {
  content : A;
  media_type : string;
  filename : string
}.
Arguments mkStreamingResponse {A} content media_type filename.
Arguments content {A} _.
Arguments media_type {A} _.
Arguments filename {A} _.

Definition expected_columns : list string :=
  [ "SubmissionDate"; "EmployeeNumber"; "EmployeeName"; "Gender"; "Age";
    "Waist Circumference (inches)"; "Height - Feet"; "Height - Inches";
    "Weight (lb)"; "BMI"; "BMI Category" ].

(** The two [except] clauses shared by both download handlers. *)
Definition download_handler {A : Type} (e : exn) : M A :=
  match e with
  | FileNotFoundError =>
      raise (HTTPException 404 (Lit "Survey responses file not found"))
  | _ =>
      raise (HTTPException 500 (FStr "Error downloading survey responses: " e))
  end.

Section Rendering.

(** How pandas prints a float in a CSV field. *)
Variable float_repr : Q -> string.

(** The text of a cell in a CSV file; a missing value is empty. *)
Definition cell_text (c : cell) : string :=
  match c with
  | NaN => EmptyString
  | Str s => s
  | Int z => Py.str_int z
  | Float q => float_repr q
  end.

(** The header and the records of [df] as rows of field texts. *)
Definition csv_table (df : DataFrame) : list (list string) :=
  columns df
  :: map (fun r => map (fun c => cell_text (get c r)) (columns df)) (rows df).

(** [df.to_csv(output, index=False, quoting=quoting)]. *)
Definition to_csv (quoting : Z) (df : DataFrame) : string :=
  Csv.write quoting (csv_table df).

(** [timestamp] is [datetime.now().strftime('%Y%m%d_%H%M%S')]. *)
Definition download_survey_responses (timestamp : string)
    : M (StreamingResponse string) :=
  try_except
    (ex <- survey_exists ;;
     if negb ex
     then raise (HTTPException 404 (Lit "No survey responses found"))
     else
       df <- read_survey ;;
       if Pd.empty df
       then raise (HTTPException 404
                     (Lit "No survey responses available for download"))
       else
         let df := reindex expected_columns df in
         let csv_content := to_csv 1 df in
         ret (mkStreamingResponse csv_content "text/csv"
                ("survey_responses_" ++ timestamp ++ ".csv")))
    download_handler.

End Rendering.

Definition download_survey_responses_excel (timestamp : string)
    : M (StreamingResponse Worksheet) :=
  try_except
    (ex <- survey_exists ;;
     if negb ex
     then raise (HTTPException 404 (Lit "No survey responses found"))
     else
       df <- read_survey ;;
       if Pd.empty df
       then raise (HTTPException 404
                     (Lit "No survey responses available for download"))
       else
         let df := reindex expected_columns df in
         let worksheet := to_excel "Survey Responses" df in
         ret (mkStreamingResponse worksheet
                "application/vnd.openxmlformats-officedocument.spreadsheetml.sheet"
                ("survey_responses_" ++ timestamp ++ ".xlsx")))
    download_handler.

(** ** Running handlers *)

Definition outcome {A : Type} (m : M A) (fs : FS) : result A := fst (m fs).
Definition after {A : Type} (m : M A) (fs : FS) : FS := snd (m fs).

(** The employee numbers of the roster as [submit_survey] sees them; there
    are none when the roster cannot be loaded. *)
Definition roster_numbers (fs : FS) : list string :=
  match outcome load_employees fs with
  | Return employees => map EmployeeNumber employees
  | Raise _ => []
  end.

(** Requests served one after the other. *)
Fixpoint submit_all (reqs : list (string * SurveySubmission)) (fs : FS) : FS :=
  match reqs with
  | [] => fs
  | (now, survey) :: reqs' =>
      submit_all reqs' (after (submit_survey now survey) fs)
  end.

(** The records [get_survey_responses] returns, none if it raises. *)
Definition readAll (fs : FS) : list record :=
  match outcome get_survey_responses fs with
  | Return rs => rs
  | Raise _ => []
  end.


(** The request passes the roster check of [submit_survey]. *)
Definition accepted (fs : FS) (req : string * SurveySubmission) : bool :=
  Py.contains (Py.zfill 8 (employeeNumber (snd req))) (roster_numbers fs).

(** The table [submit_survey] writes back. *)
Definition updated (now : string) (survey : SurveySubmission)
    (old : option DataFrame) : DataFrame :=
  let sd := survey_data now (Py.zfill 8 (employeeNumber survey)) survey in
  match old with
  | Some existing_df => concat existing_df (from_records [sd])
  | None => from_records [sd]
  end.



(** ** Vocabulary of the statements about statistics *)

(** A series without text, as [read_csv] types a column of numbers. *)
Definition numeric (s : list cell) : Prop :=
  existsb Stats.is_text s = false.

(** The six columns the averages read hold no text. *)
Definition numeric_frame (df : DataFrame) : Prop :=
  numeric (series "Age" df) /\ numeric (series "BMI" df)
  /\ numeric (series "Waist Circumference (inches)" df)
  /\ numeric (series "Weight (lb)" df)
  /\ numeric (series "Height - Feet" df)
  /\ numeric (series "Height - Inches" df).

(** [v] is the mean of column [c] rounded to one decimal, or 0 when the
    column is not there or has no value at all; and when no record lacks
    a value the mean is taken over every record. *)
Definition reports_mean (c : string) (df : DataFrame) (v : cell) : Prop :=
  (has_column c df = false \/ Stats.all_na (series c df) = true ->
   v = Int 0)
  /\ (has_column c df = true -> Stats.all_na (series c df) = false ->
      v = Float (Py.round1
                   (Stats.arithmetic_mean (Stats.present (series c df)))))
  /\ (existsb Stats.isna (series c df) = false ->
      length (Stats.present (series c df)) = length (rows df)).

(** The height of a record in inches, [feet * 12 + inches], when both
    parts are there. *)
Definition total_inches (r : record) : option Q :=
  match Stats.number (get "Height - Feet" r),
        Stats.number (get "Height - Inches" r) with
  | Some f, Some i => Some (f * 12 + i)
  | _, _ => None
  end.

(** The cell [t] holds the height of [r] in inches, or is missing when
    the record has no complete height. *)
Definition holds_total_inches (r : record) (t : cell) : Prop :=
  match total_inches r, Stats.number t with
  | Some a, Some b => a == b
  | None, None => t = NaN
  | _, _ => False
  end.

Fixpoint heights (rs : list record) : list Q :=
  match rs with
  | [] => []
  | r :: rs' =>
      match total_inches r with
      | Some q => q :: heights rs'
      | None => heights rs'
      end
  end.

(** The average height following the words of the specification: the
    heights in inches are averaged, feet is the floor of the average over
    12 and inches is the remainder rounded to one decimal; 0 and 0 when
    there is no height. *)
Definition height_as_worded (rs : list record) : Z * cell :=
  match heights rs with
  | [] => (0%Z, Int 0)
  | qs =>
      let average := Stats.arithmetic_mean qs in
      (Qfloor (average / 12),
       Float (Py.round1 (average - 12 * inject_Z (Qfloor (average / 12)))))
  end.

(** What [Stats.average_height] returns on height columns without text. *)
Definition height_from_rounded_mean (df : DataFrame) (totals : list cell)
    (h : Z * cell) : Prop :=
  ((has_column "Height - Feet" df && has_column "Height - Inches" df)%bool
     = false
   \/ Stats.all_na totals = true -> h = (0%Z, Int 0))
  /\ ((has_column "Height - Feet" df && has_column "Height - Inches" df)%bool
        = true ->
      Stats.all_na totals = false ->
      let rounded :=
        Py.round1 (Stats.arithmetic_mean (Stats.present totals)) in
      (0 < rounded ->
       h = (Py.floordiv12 rounded, Float (Py.round1 (Py.mod12 rounded))))
      /\ (rounded <= 0 -> h = (0%Z, Int 0))).

(** The height pair of a statistics result. *)
Definition reported_height (r : result Statistics) : option (Z * cell) :=
  match r with
  | Return (Full _ _ a _) => Some (avg_height_feet a, avg_height_inches a)
  | _ => None
  end.

(** Thirty stored records: twenty-nine people of 6 ft 0 in and one of
    5 ft 11 in. *)
Definition person (feet inches : Z) : record :=
  survey_data "2024-05-01 09:00:00" "00070081"
    (mkSurveySubmission "70081" "Nilar" "Female" 41 (30 # 1) feet inches
       (120 # 1) (206 # 10) "Normal").

Definition crew : DataFrame :=
  mkDataFrame headers (repeat (person 6 0) 29 ++ [person 5 11]).

(** ** Vocabulary of the further statements *)

(** The submission [survey] with another employee number. *)
Definition renumbered (number : string) (survey : SurveySubmission)
    : SurveySubmission :=
  mkSurveySubmission number (employeeName survey) (gender survey)
    (age survey) (waistCircumference survey) (heightFeet survey)
    (heightInches survey) (weight survey) (bmi survey) (bmiCategory survey).

(** The sum of the counts of a distribution. *)
Definition counted (d : list (cell * nat)) : nat :=
  fold_right (fun p n => (snd p + n)%nat) 0%nat d.

(** The number of entries of a series that are not missing. *)
Definition filled (s : list cell) : nat :=
  length (filter (fun c => negb (Stats.isna c)) s).

(** The two distributions of a statistics result. *)
Definition reported_distributions (r : result Statistics)
    : option (list (cell * nat) * list (cell * nat)) :=
  match r with
  | Return (Full _ g _ c) => Some (g, c)
  | _ => None
  end.


(** ** The diagnostic endpoint *)

(** [df.head(n)]. *)
Definition head (n : nat) (df : DataFrame) : DataFrame :=
  mkDataFrame (columns df) (firstn n (rows df)).

(** The three shapes [debug_csv] returns. *)
Inductive DebugAnswer : Type :=
| DebugMessage (msg : string)
| DebugFile (debug_columns : list string) (total_rows : nat)
            (debug_sample : list record) (file_size_bytes : nat)
| DebugError (e : exn).

Section Debug.

(** [os.path.getsize] of the file that holds a table. *)
Variable getsize : DataFrame -> nat.

Definition debug_csv : M DebugAnswer :=
  try_except
    (ex <- survey_exists ;;
     if negb ex then ret (DebugMessage "CSV file doesn't exist")
     else
       df <- read_survey ;;
       ret (DebugFile (columns df) (length (rows df))
              (if negb (Pd.empty df)
               then to_dict_records (head 2 df) else [])
              (getsize df)))
    (fun e => ret (DebugError e)).

End Debug.

(** ** Column widths of the spreadsheet *)

Module Xl.





Section Widths.

(** [str(cell.value)] for the cell that holds a value of the table. *)
Variable value_str : cell -> string.


End Widths.

End Xl.

(** ** A reader of fully quoted CSV text *)

(** The reader that the quoting is written for: every field stands between
    quotes, a doubled quote inside a field is one quote, a comma after a
    closing quote starts the next field and a newline after it ends the
    row.  Commas and newlines between the quotes belong to the field. *)
Module Reader.

Inductive state : Type := LineStart | FieldStart | InField | AfterQuote.

Definition snoc (s : string) (c : ascii) : string :=
  (s ++ String c EmptyString)%string.

Fixpoint run (s : string) (st : state) (cur : string) (row : list string)
    (done : list (list string)) : option (list (list string)) :=
  match s with
  | EmptyString =>
      match st with
      | LineStart => Some done
      | _ => None
      end
  | String c rest =>
      match st with
      | LineStart =>
          if Ascii.eqb c Csv.dquote
          then run rest InField EmptyString [] done
          else if Ascii.eqb c Csv.newline
               then run rest LineStart EmptyString [] (done ++ [[]])
               else None
      | FieldStart =>
          if Ascii.eqb c Csv.dquote
          then run rest InField EmptyString row done
          else None
      | InField =>
          if Ascii.eqb c Csv.dquote
          then run rest AfterQuote cur row done
          else run rest InField (snoc cur c) row done
      | AfterQuote =>
          if Ascii.eqb c Csv.dquote
          then run rest InField (snoc cur Csv.dquote) row done
          else if Ascii.eqb c ","
               then run rest FieldStart EmptyString (row ++ [cur]) done
               else if Ascii.eqb c Csv.newline
                    then run rest LineStart EmptyString []
                           (done ++ [row ++ [cur]])
                    else None
      end
  end.

Definition read (s : string) : option (list (list string)) :=
  run s LineStart EmptyString [] [].

End Reader.

(** ** Vocabulary of the statements about whole-number columns *)

(** The whole number a cell holds, as an integer or as a float without
    fraction. *)
Definition whole_of (c : cell) : option Z :=
  match c with
  | Int z => Some z
  | Float q => if Qeq_bool q (inject_Z (Qfloor q)) then Some (Qfloor q) else None
  | _ => None
  end.

(** A cell that is missing or holds a whole number of at most a million in
    absolute value: on such cells the 64-bit integer and floating-point
    arithmetic of the statistics is exact. *)
Definition whole_number (c : cell) : bool :=
  match c with
  | NaN => true
  | _ =>
      match whole_of c with
      | Some z => (Z.abs z <=? 1000000)%Z
      | None => false
      end
  end.

(** A column of at most a million cells, each missing or a whole number. *)
Definition whole_column (s : list cell) : bool :=
  (forallb whole_number s && (Z.of_nat (length s) <=? 1000000)%Z)%bool.


(** The arithmetic mean of whole numbers: their sum over their count. *)
Definition mean_of (zs : list Z) : Q :=
  inject_Z (fold_right Z.add 0%Z zs) / inject_Z (Z.of_nat (length zs)).

(** [r] is [mean] rounded to one decimal: a whole number of tenths at most
    one twentieth away from it. *)
Definition nearest_tenth (mean r : Q) : Prop :=
  (exists k : Z, r == inject_Z k / 10)
  /\ mean - (1 # 20) <= r
  /\ r <= mean + (1 # 20).

(** The heights in whole inches, [feet * 12 + inches], of the records that
    have both parts. *)
Fixpoint whole_heights (rs : list record) : list Z :=
  match rs with
  | [] => []
  | r :: rs' =>
      match whole_of (get "Height - Feet" r),
            whole_of (get "Height - Inches" r) with
      | Some f, Some i => (f * 12 + i)%Z :: whole_heights rs'
      | _, _ => whole_heights rs'
      end
  end.

(** The height columns of [df] are whole columns. *)
Definition plain_heights (df : DataFrame) : bool :=
  (whole_column (series "Height - Feet" df)
   && whole_column (series "Height - Inches" df))%bool.

(** The columns of the 11 that a table lacks, in the order of [headers]. *)
Definition lacking (cols : list string) : list string :=
  filter (fun c => negb (Py.contains c cols)) headers.

(** * Properties *)

Ltac run :=
  unfold outcome, after, try_except, bind, ret, raise, lift,
    employees_exists, survey_exists, read_employees, read_survey,
    write_survey, write_employees; simpl.

(** ** The roster *)

Lemma load_employees_absent (survey : option DataFrame) :
  load_employees (mkFS None survey) =
  (Raise (HTTPException 500
            (FStr "Error loading employee data: "
               (HTTPException 404 (Lit "Employee data file not found")))),
   mkFS None survey).
Proof. reflexivity. Qed.

Lemma load_employees_present (roster : list roster_row)
    (survey : option DataFrame) :
  load_employees (mkFS (Some roster) survey) =
  (Return (map load_row roster), mkFS (Some roster) survey).
Proof. reflexivity. Qed.

Lemma load_employees_keeps_files (fs : FS) : snd (load_employees fs) = fs.
Proof.
  destruct fs as [[roster|] survey].
  - now rewrite load_employees_present.
  - now rewrite load_employees_absent.
Qed.

Lemma roster_numbers_present (roster : list roster_row)
    (survey : option DataFrame) :
  roster_numbers (mkFS (Some roster) survey) =
  map EmployeeNumber (map load_row roster).
Proof. reflexivity. Qed.

Lemma roster_numbers_absent (survey : option DataFrame) :
  roster_numbers (mkFS None survey) = [].
Proof. reflexivity. Qed.

(** ** Submissions *)

Lemma submit_survey_rejects (now : string) (survey : SurveySubmission)
    (fs : FS) :
  Py.contains (Py.zfill 8 (employeeNumber survey)) (roster_numbers fs) = false ->
  exists e,
    submit_survey now survey fs =
    (Raise (HTTPException 500 (FStr "Error submitting survey: " e)), fs).
Proof.
  destruct fs as [[roster|] sv]; intros H.
  - rewrite roster_numbers_present in H.
    exists (HTTPException 400 (Lit "Invalid employee number")).
    unfold submit_survey, try_except, bind.
    rewrite load_employees_present, H. reflexivity.
  - eexists. unfold submit_survey, try_except, bind.
    rewrite load_employees_absent. reflexivity.
Qed.

Lemma submit_survey_accepts (now : string) (survey : SurveySubmission)
    (fs : FS) :
  Py.contains (Py.zfill 8 (employeeNumber survey)) (roster_numbers fs) = true ->
  submit_survey now survey fs =
  (Return (mkSubmitResponse "Survey submitted successfully"
             (survey_data now (Py.zfill 8 (employeeNumber survey)) survey)),
   mkFS (EMPLOYEES_CSV fs) (Some (updated now survey (SURVEY_DATA_CSV fs)))).
Proof.
  destruct fs as [[roster|] sv]; intros H.
  - rewrite roster_numbers_present in H.
    unfold submit_survey, try_except, bind.
    rewrite load_employees_present, H.
    destruct sv as [df|]; reflexivity.
  - rewrite roster_numbers_absent in H. discriminate H.
Qed.

(** C1, at a request whose number is not on the sample roster: the handler
    raises status 400 with the detail Invalid employee number inside its own
    [try], the catch-all clause takes it, and the client is answered with
    status 500 and a detail that wraps the first exception. *)
Theorem submit_unknown_number_answers_500 :
  forall (now name g cat : string) (a hf hi : Z) (wc w b : Q)
         (survey : option DataFrame),
    let request :=
      mkSurveySubmission "12345" name g a wc hf hi w b cat in
    let fs := mkFS (Some sample_data) survey in
    outcome (submit_survey now request) fs =
      Raise (HTTPException 500
               (FStr "Error submitting survey: "
                  (HTTPException 400 (Lit "Invalid employee number"))))
    /\ http_status (outcome (submit_survey now request) fs) = 500%Z.
Proof. intros. split; reflexivity. Qed.

(** C4: a submission whose normalized number is not on the roster fails,
    and the files are the same after the request as before it. *)
Theorem rejected_submission_writes_nothing :
  forall (now : string) (survey : SurveySubmission) (fs : FS),
    Py.contains (Py.zfill 8 (employeeNumber survey)) (roster_numbers fs) = false ->
    (exists e, outcome (submit_survey now survey) fs = Raise e)
    /\ after (submit_survey now survey) fs = fs
    /\ readAll (after (submit_survey now survey) fs) = readAll fs.
Proof.
  intros now survey fs H.
  destruct (submit_survey_rejects now survey fs H) as [e He].
  unfold outcome, after. rewrite He. simpl.
  split; [eexists; reflexivity | split; reflexivity].
Qed.

Lemma rejected_submission_writes_nothing_witness :
  let request :=
    mkSurveySubmission "12345" "Nilar" "Female" 41 (30 # 1) 5 4 (120 # 1)
      (206 # 10) "Normal" in
  let fs := after startup_event (mkFS None None) in
  Py.contains (Py.zfill 8 (employeeNumber request)) (roster_numbers fs) = false
  /\ after (submit_survey "2024-05-01 09:00:00" request) fs = fs.
Proof.
  intros request fs. split; [reflexivity |].
  apply (rejected_submission_writes_nothing
           "2024-05-01 09:00:00" request fs).
  reflexivity.
Defined.

(** C3, with the roster file absent: [load_employees] raises status 404
    inside its own [try], the catch-all clause takes it, and what leaves
    the function is status 500. *)
Theorem load_employees_absent_answers_500 :
  forall survey : option DataFrame,
    outcome load_employees (mkFS None survey) =
      Raise (HTTPException 500
               (FStr "Error loading employee data: "
                  (HTTPException 404 (Lit "Employee data file not found"))))
    /\ http_status (outcome get_employees (mkFS None survey)) = 500%Z.
Proof. intros. split; reflexivity. Qed.

(** ** Exports of an empty store *)

Lemma download_handler_wraps {A : Type} (s : Z) (d : message) (fs : FS) :
  @download_handler A (HTTPException s d) fs =
  (Raise (HTTPException 500
            (FStr "Error downloading survey responses: " (HTTPException s d))),
   fs).
Proof. reflexivity. Qed.

(** C2, with the record store absent or holding no record: each download
    handler raises status 404 inside its own [try], the clause for
    [FileNotFoundError] does not match an [HTTPException], the catch-all
    clause takes it, and the client is answered with status 500. *)
Theorem download_without_records_answers_500 :
  forall (float_repr : Q -> string) (timestamp : string)
         (roster : option (list roster_row)) (cols : list string),
    let absent := mkFS roster None in
    let no_rows := mkFS roster (Some (mkDataFrame cols [])) in
    outcome (download_survey_responses float_repr timestamp) absent =
      Raise (HTTPException 500
               (FStr "Error downloading survey responses: "
                  (HTTPException 404 (Lit "No survey responses found"))))
    /\ outcome (download_survey_responses float_repr timestamp) no_rows =
      Raise (HTTPException 500
               (FStr "Error downloading survey responses: "
                  (HTTPException 404
                     (Lit "No survey responses available for download"))))
    /\ outcome (download_survey_responses_excel timestamp) absent =
      Raise (HTTPException 500
               (FStr "Error downloading survey responses: "
                  (HTTPException 404 (Lit "No survey responses found"))))
    /\ outcome (download_survey_responses_excel timestamp) no_rows =
      Raise (HTTPException 500
               (FStr "Error downloading survey responses: "
                  (HTTPException 404
                     (Lit "No survey responses available for download")))).
Proof.
  intros. repeat split; try reflexivity;
    unfold no_rows; run; destruct cols; reflexivity.
Qed.

(** ** Normalization of employee numbers *)

Lemma zeros_length (n : nat) : String.length (Py.zeros n) = n.
Proof. induction n; simpl; congruence. Qed.

Lemma append_length (s t : string) :
  String.length (s ++ t)%string = (String.length s + String.length t)%nat.
Proof. induction s; simpl; congruence. Qed.

Lemma digit_is_not_sign (c : ascii) :
  Py.is_digit c = true -> Py.is_sign c = false.
Proof.
  unfold Py.is_digit, Py.is_sign. intros H.
  apply andb_true_iff in H. destruct H as [Hlo Hhi].
  apply Nat.leb_le in Hlo.
  destruct (Ascii.eqb_spec c "+") as [->|_]; [vm_compute in Hlo; lia|].
  destruct (Ascii.eqb_spec c "-") as [->|_]; [vm_compute in Hlo; lia|].
  reflexivity.
Qed.

Lemma zfill_long (width : nat) (s : string) :
  (width <= String.length s)%nat -> Py.zfill width s = s.
Proof.
  intros H. unfold Py.zfill.
  apply Nat.leb_le in H. now rewrite H.
Qed.

Lemma zfill_short (width : nat) (s : string) :
  (String.length s < width)%nat ->
  match s with String c _ => Py.is_sign c = false | EmptyString => True end ->
  Py.zfill width s = (Py.zeros (width - String.length s) ++ s)%string.
Proof.
  intros H Hs. unfold Py.zfill.
  apply Nat.leb_gt in H. rewrite H.
  destruct s as [|c rest].
  - clear. induction (width - String.length EmptyString)%nat; simpl; congruence.
  - now rewrite Hs.
Qed.

Lemma zfill_decimal_short (width : nat) (s : string) :
  Py.is_decimal s = true ->
  (String.length s < width)%nat ->
  Py.zfill width s = (Py.zeros (width - String.length s) ++ s)%string.
Proof.
  intros Hd H. apply zfill_short; [exact H|].
  destruct s as [|c rest]; [exact I|].
  simpl in Hd. apply andb_true_iff in Hd.
  now apply digit_is_not_sign.
Qed.

Lemma zfill_idempotent (width : nat) (s : string) :
  Py.is_decimal s = true ->
  Py.zfill width (Py.zfill width s) = Py.zfill width s.
Proof.
  intros Hd.
  destruct (Nat.le_gt_cases width (String.length s)) as [H|H].
  - rewrite (zfill_long _ _ H). now apply zfill_long.
  - rewrite (zfill_decimal_short _ _ Hd H).
    apply zfill_long. rewrite append_length, zeros_length. lia.
Qed.

(** C5: a roster number of decimal digits that is shorter than 8
    characters is loaded with zeros added on its left up to exactly 8
    characters; one of 8 characters is loaded as it is; and normalizing a
    loaded number again changes nothing. *)
Theorem load_employees_pads_numbers :
  forall (roster : list roster_row) (survey : option DataFrame)
         (i : nat) (s : string) (name : option string),
    nth_error roster i = Some (Some s, name) ->
    Py.is_decimal s = true ->
    exists employees e,
      outcome load_employees (mkFS (Some roster) survey) = Return employees
      /\ nth_error employees i = Some e
      /\ ((String.length s < 8)%nat ->
          EmployeeNumber e = (Py.zeros (8 - String.length s) ++ s)%string
          /\ String.length (EmployeeNumber e) = 8%nat)
      /\ (String.length s = 8%nat -> EmployeeNumber e = s)
      /\ Py.zfill 8 (EmployeeNumber e) = EmployeeNumber e.
Proof.
  intros roster survey i s name Hi Hd.
  exists (map load_row roster), (load_row (Some s, name)).
  split; [reflexivity|].
  split; [now apply map_nth_error|].
  unfold load_row; simpl.
  repeat split.
  - now apply zfill_decimal_short.
  - rewrite zfill_decimal_short by assumption.
    rewrite append_length, zeros_length. lia.
  - intros H. apply zfill_long. lia.
  - now apply zfill_idempotent.
Qed.

Lemma load_employees_pads_numbers_witness :
  let roster := [(Some "70098", Some "Aye Aye Tun");
                 (Some "00070081", Some "Nilar")] in
  exists employees e,
    outcome load_employees (mkFS (Some roster) None) = Return employees
    /\ nth_error employees 0 = Some e
    /\ EmployeeNumber e = "00070098".
Proof.
  intros roster.
  destruct (load_employees_pads_numbers roster None 0 "70098"
              (Some "Aye Aye Tun") eq_refl eq_refl)
    as (employees & e & Hrun & Hnth & Hshort & _ & _).
  exists employees, e. split; [exact Hrun|]. split; [exact Hnth|].
  apply Hshort. simpl. lia.
Defined.

(** ** Tables *)

Lemma contains_In (x : string) (xs : list string) :
  Py.contains x xs = true <-> In x xs.
Proof.
  unfold Py.contains. rewrite existsb_exists. split.
  - intros [y [Hy He]]. apply String.eqb_eq in He. now subst.
  - intros H. exists x. split; [exact H | apply String.eqb_refl].
Qed.

Lemma get_align (cols : list string) (c : string) (r : record) :
  In c cols -> get c (align cols r) = get c r.
Proof.
  unfold align. induction cols as [|c0 cols IH]; simpl; [tauto|].
  intros H. destruct (String.eqb_spec c0 c) as [->|Hne]; [reflexivity|].
  destruct H as [H|H]; [contradiction|]. now apply IH.
Qed.

Lemma union_keeps_left (ys xs : list string) (c : string) :
  In c xs -> In c (union xs ys).
Proof.
  revert xs. induction ys as [|y ys IH]; simpl; intros xs H; [exact H|].
  destruct (Py.contains y xs); apply IH; [exact H|].
  apply in_or_app. now left.
Qed.

Lemma union_keeps_right (ys xs : list string) (c : string) :
  In c ys -> In c (union xs ys).
Proof.
  revert xs. induction ys as [|y ys IH]; simpl; intros xs H; [contradiction|].
  destruct H as [->|H].
  - destruct (Py.contains c xs) eqn:E.
    + apply union_keeps_left. now apply contains_In.
    + apply union_keeps_left. apply in_or_app. right. now left.
  - destruct (Py.contains y xs); now apply IH.
Qed.

Lemma from_records_survey_data (now n : string) (survey : SurveySubmission) :
  from_records [survey_data now n survey] =
  mkDataFrame headers [survey_data now n survey].
Proof. reflexivity. Qed.




Lemma get_survey_responses_runs (fs : FS) :
  get_survey_responses fs =
  (Return match SURVEY_DATA_CSV fs with
          | Some df => to_dict_records df
          | None => []
          end, fs).
Proof. destruct fs as [roster [df|]]; reflexivity. Qed.

Lemma readAll_stored (fs : FS) :
  readAll fs = match SURVEY_DATA_CSV fs with
               | Some df => to_dict_records df
               | None => []
               end.
Proof. unfold readAll, outcome. now rewrite get_survey_responses_runs. Qed.










(** ** Statistics *)

Lemma present_of_values (s : list cell) :
  numeric s -> Stats.all_na s = false -> Stats.present s <> [].
Proof.
  unfold numeric. induction s as [|c s IH]; simpl; [discriminate|].
  intros Hn Ha. apply orb_false_iff in Hn. destruct Hn as [Hc Hs].
  destruct c; simpl in *; try discriminate.
  now apply IH.
Qed.

Lemma present_of_full (s : list cell) :
  numeric s -> existsb Stats.isna s = false ->
  length (Stats.present s) = length s.
Proof.
  unfold numeric. induction s as [|c s IH]; simpl; [reflexivity|].
  intros Hn Ha.
  apply orb_false_iff in Hn. destruct Hn as [Hc Hs].
  apply orb_false_iff in Ha. destruct Ha as [Hc' Hs'].
  destruct c; simpl in *; try discriminate; now rewrite IH.
Qed.

Lemma mean_of_values (s : list cell) :
  numeric s -> Stats.all_na s = false ->
  Stats.mean s = Return (Float (Stats.arithmetic_mean (Stats.present s))).
Proof.
  intros Hn Ha. unfold Stats.mean. rewrite Hn.
  pose proof (present_of_values s Hn Ha) as Hne.
  destruct (Stats.present s); [contradiction|reflexivity].
Qed.

Lemma average_of_column (c : string) (df : DataFrame) :
  numeric (series c df) ->
  exists v, Stats.average c df = Return v /\ reports_mean c df v.
Proof.
  intros Hn. unfold Stats.average, reports_mean.
  destruct (has_column c df) eqn:Hc;
    destruct (Stats.all_na (series c df)) eqn:Ha; simpl.
  all: try (exists (Int 0); split; [reflexivity|]; split; [reflexivity|];
            split; [discriminate|];
            intros Hfull; rewrite present_of_full by assumption;
            apply length_map).
  rewrite (mean_of_values _ Hn Ha). simpl.
  eexists. split; [reflexivity|]. split.
  - intros [H|H]; discriminate H.
  - split; [reflexivity|].
    intros Hfull. rewrite present_of_full by assumption. apply length_map.
Qed.

Lemma height_entry_numeric (r : record) :
  Stats.is_text (get "Height - Feet" r) = false ->
  Stats.is_text (get "Height - Inches" r) = false ->
  exists t, Stats.height_entry r = Return t
            /\ holds_total_inches r t /\ Stats.is_text t = false.
Proof.
  unfold Stats.height_entry, holds_total_inches, total_inches.
  destruct (get "Height - Feet" r) as [|sf|f|f];
    destruct (get "Height - Inches" r) as [|si|i|i]; simpl;
    intros Hf Hi; try discriminate;
    eexists; (split; [reflexivity|]); simpl; (split; [|reflexivity]);
    try reflexivity.
  unfold Qeq. simpl. lia.
Qed.

Lemma height_series_numeric (rs : list record) :
  numeric (map (get "Height - Feet") rs) ->
  numeric (map (get "Height - Inches") rs) ->
  exists totals,
    Stats.height_series rs = Return totals
    /\ Forall2 holds_total_inches rs totals
    /\ numeric totals.
Proof.
  unfold numeric. induction rs as [|r rs IH]; simpl; intros Hf Hi.
  - exists []. repeat split. constructor.
  - apply orb_false_iff in Hf. destruct Hf as [Hf Hfs].
    apply orb_false_iff in Hi. destruct Hi as [Hi His].
    destruct (height_entry_numeric r Hf Hi) as (t & Ht & Hrel & Htext).
    destruct (IH Hfs His) as (ts & Hts & Hrels & Htexts).
    exists (t :: ts). rewrite Ht, Hts. repeat split.
    + now constructor.
    + simpl. now rewrite Htext, Htexts.
Qed.

Lemma positive_float (q : Q) : Stats.positive (Float q) = true <-> 0 < q.
Proof.
  unfold Stats.positive. simpl. rewrite Qlt_alt.
  destruct (0 ?= q)%Q; split; congruence.
Qed.

Lemma average_height_numeric (df : DataFrame) :
  numeric (series "Height - Feet" df) ->
  numeric (series "Height - Inches" df) ->
  exists totals h,
    Stats.height_series (rows df) = Return totals
    /\ Forall2 holds_total_inches (rows df) totals
    /\ Stats.average_height df = Return h
    /\ height_from_rounded_mean df totals h.
Proof.
  intros Hf Hi.
  destruct (height_series_numeric (rows df) Hf Hi) as (ts & Hts & Hrel & Hn).
  exists ts. unfold Stats.average_height, height_from_rounded_mean.
  rewrite Hts.
  destruct (has_column "Height - Feet" df && has_column "Height - Inches" df)%bool.
  - destruct (Stats.all_na ts) eqn:Ha; simpl.
    + eexists. repeat split; try assumption; try reflexivity; discriminate.
    + rewrite (mean_of_values ts Hn Ha). simpl.
      set (a := Py.round1 (Stats.arithmetic_mean (Stats.present ts))).
      eexists. split; [reflexivity|]. split; [exact Hrel|].
      split; [reflexivity|]. split.
      * intros [H|H]; discriminate H.
      * intros _ _. unfold Stats.feet_of, Stats.inches_of.
        cbn [Stats.number].
        destruct (Stats.positive (Float a)) eqn:Hp.
        -- split; [reflexivity|].
           intros Hle. apply positive_float in Hp.
           exfalso. apply (Qlt_not_le _ _ Hp Hle).
        -- split; [|reflexivity].
           intros Hlt. apply positive_float in Hlt. congruence.
  - eexists. repeat split; try assumption; try reflexivity; discriminate.
Qed.

Lemma statistics_without_file (roster : option (list roster_row)) :
  get_survey_statistics (mkFS roster None) =
  (Return (NoData 0 "No survey data available"), mkFS roster None).
Proof. reflexivity. Qed.

Lemma statistics_without_records (roster : option (list roster_row))
    (df : DataFrame) :
  Pd.empty df = true ->
  get_survey_statistics (mkFS roster (Some df)) =
  (Return (NoData 0 "No survey responses available"),
   mkFS roster (Some df)).
Proof.
  intros H. unfold get_survey_statistics. run. now rewrite H.
Qed.

Lemma statistics_with_records (roster : option (list roster_row))
    (df : DataFrame) (a_age a_bmi a_waist a_weight : cell) (h : Z * cell) :
  Pd.empty df = false ->
  Stats.average "Age" df = Return a_age ->
  Stats.average "BMI" df = Return a_bmi ->
  Stats.average "Waist Circumference (inches)" df = Return a_waist ->
  Stats.average "Weight (lb)" df = Return a_weight ->
  Stats.average_height df = Return h ->
  exists genders categories,
    outcome get_survey_statistics (mkFS roster (Some df)) =
    Return (Full (length (rows df)) genders
              (mkAverages a_age a_bmi a_waist a_weight (fst h) (snd h))
              categories).
Proof.
  intros He H1 H2 H3 H4 H5.
  unfold get_survey_statistics. run.
  rewrite He, H1, H2, H3, H4, H5. simpl.
  eexists. eexists. reflexivity.
Qed.

(** C8, as stated, fails on thirty records of which twenty-nine are
    6 ft 0 in and one is 5 ft 11 in: the average is 2159/30 inches, whose
    floor over 12 is 5 with remainder 12.0 after rounding, while the
    operation rounds the average to 72.0 first and reports 6 and 0.0. *)
Lemma statistics_height_not_as_worded :
  reported_height (outcome get_survey_statistics (mkFS None (Some crew))) =
    Some (6%Z, Float 0)
  /\ height_as_worded (rows crew) = (5%Z, Float 12)
  /\ reported_height (outcome get_survey_statistics (mkFS None (Some crew)))
     <> Some (height_as_worded (rows crew)).
Proof.
  assert (Hcode : reported_height
                    (outcome get_survey_statistics (mkFS None (Some crew))) =
                  Some (6%Z, Float 0)) by (vm_compute; reflexivity).
  assert (Hwords : height_as_worded (rows crew) = (5%Z, Float 12))
    by (vm_compute; reflexivity).
  split; [exact Hcode|]. split; [exact Hwords|].
  rewrite Hcode, Hwords. discriminate.
Qed.

(** ** Exports of a store with records *)



Lemma line_quote_all (fields : list string) :
  Csv.line 1 fields =
  (String.concat "," (map Csv.quoted fields)
   ++ String Csv.newline EmptyString)%string.
Proof. reflexivity. Qed.

Lemma values_of_aligned {A : Type} (f : cell -> A) (cols : list string)
    (r : record) :
  map (fun c => f (get c (align cols r))) cols =
  map (fun c => f (get c r)) cols.
Proof.
  apply map_ext_in. intros c Hc. now rewrite get_align.
Qed.

Lemma csv_table_reindex (float_repr : Q -> string) (df : DataFrame) :
  csv_table float_repr (reindex expected_columns df) =
  expected_columns
  :: map (fun r => map (fun c => cell_text float_repr (get c r))
                     expected_columns) (rows df).
Proof.
  unfold csv_table, reindex. cbn [columns rows].
  f_equal. rewrite map_map. apply map_ext. intros r.
  apply (values_of_aligned (cell_text float_repr)).
Qed.


Lemma download_csv_runs (float_repr : Q -> string) (timestamp : string)
    (roster : option (list roster_row)) (df : DataFrame) :
  Pd.empty df = false ->
  outcome (download_survey_responses float_repr timestamp)
    (mkFS roster (Some df)) =
  Return (mkStreamingResponse
            (to_csv float_repr 1 (reindex expected_columns df))
            "text/csv" ("survey_responses_" ++ timestamp ++ ".csv")%string).
Proof.
  intros H. unfold download_survey_responses. run. now rewrite H.
Qed.




(** ** Further properties of the roster and of the roster check *)

Lemma zfill_length (width : nat) (s : string) :
  String.length (Py.zfill width s) = Nat.max width (String.length s).
Proof.
  unfold Py.zfill.
  destruct (width <=? String.length s)%nat eqn:E.
  - apply Nat.leb_le in E. lia.
  - apply Nat.leb_gt in E.
    destruct s as [|c rest].
    + rewrite zeros_length. simpl. lia.
    + destruct (Py.is_sign c); simpl in *;
        rewrite append_length, zeros_length; simpl; lia.
Qed.

Lemma zfill_twice (width : nat) (s : string) :
  Py.zfill width (Py.zfill width s) = Py.zfill width s.
Proof. apply zfill_long. rewrite zfill_length. lia. Qed.

(** X1: with the roster file present, [load_employees] returns one
    employee per row of the file, in the order of the file; whatever text
    the number cell holds, the loaded number has 8 characters, or as many
    as the cell when it has more, and is its own normal form; the name is
    the text of the name cell, nan for a missing one. *)
Theorem load_employees_lists_roster :
  forall (roster : list roster_row) (survey : option DataFrame),
  exists employees,
    outcome load_employees (mkFS (Some roster) survey) = Return employees
    /\ length employees = length roster
    /\ forall i number name,
         nth_error roster i = Some (number, name) ->
         exists e,
           nth_error employees i = Some e
           /\ String.length (EmployeeNumber e) =
                Nat.max 8 (String.length (str_cell number))
           /\ Py.zfill 8 (EmployeeNumber e) = EmployeeNumber e
           /\ EmployeeName e = str_cell name.
Proof.
  intros roster survey. exists (map load_row roster).
  split; [reflexivity|]. split; [apply length_map|].
  intros i number name Hi. exists (load_row (number, name)).
  split; [now apply map_nth_error|].
  unfold load_row; simpl. repeat split.
  - apply zfill_length.
  - apply zfill_twice.
Qed.

Lemma load_employees_lists_roster_witness :
  exists employees e,
    outcome load_employees (mkFS (Some [(None, Some "Nilar")]) None) =
      Return employees
    /\ nth_error employees 0 = Some e
    /\ String.length (EmployeeNumber e) = 8%nat
    /\ EmployeeName e = "Nilar".
Proof.
  destruct (load_employees_lists_roster [(None, Some "Nilar")] None)
    as (employees & Hrun & _ & Hrows).
  destruct (Hrows 0%nat None (Some "Nilar") eq_refl)
    as (e & Hnth & Hlen & _ & Hname).
  exists employees, e. repeat split; assumption.
Defined.





(** X3: the handler reads the submitted number only through its
    zero-padded form, so a submission and the same submission with its
    number already padded have the same answer and leave the same files. *)
Theorem padded_number_submits_the_same :
  forall (now : string) (survey : SurveySubmission) (fs : FS),
    submit_survey now
      (renumbered (Py.zfill 8 (employeeNumber survey)) survey) fs =
    submit_survey now survey fs.
Proof.
  intros now survey fs.
  unfold submit_survey, renumbered. cbn [employeeNumber].
  rewrite zfill_twice. reflexivity.
Qed.

(** ** What the handlers leave alone *)

(** X4: the handlers that only read write nothing.  Whether they answer
    or raise, [load_employees], [get_employees], [get_survey_responses],
    [get_survey_statistics] and both downloads leave the roster file and
    the survey file exactly as they were. *)
Theorem read_handlers_write_nothing :
  forall (float_repr : Q -> string) (timestamp : string) (fs : FS),
    after load_employees fs = fs
    /\ after get_employees fs = fs
    /\ after get_survey_responses fs = fs
    /\ after get_survey_statistics fs = fs
    /\ after (download_survey_responses float_repr timestamp) fs = fs
    /\ after (download_survey_responses_excel timestamp) fs = fs.
Proof.
  intros float_repr timestamp [roster [df|]].
  - refine (conj _ (conj _ (conj _ (conj _ (conj _ _))))).
    + apply load_employees_keeps_files.
    + apply load_employees_keeps_files.
    + reflexivity.
    + unfold get_survey_statistics. run.
      destruct (Pd.empty df); [reflexivity|].
      destruct (Stats.average "Age" df); simpl; [|reflexivity].
      destruct (Stats.average "BMI" df); simpl; [|reflexivity].
      destruct (Stats.average "Waist Circumference (inches)" df);
        simpl; [|reflexivity].
      destruct (Stats.average "Weight (lb)" df); simpl; [|reflexivity].
      destruct (Stats.average_height df); reflexivity.
    + unfold download_survey_responses. run.
      destruct (Pd.empty df); reflexivity.
    + unfold download_survey_responses_excel. run.
      destruct (Pd.empty df); reflexivity.
  - refine (conj _ (conj _ (conj _ (conj _ (conj _ _)))));
      try reflexivity; apply load_employees_keeps_files.
Qed.

Lemma submit_survey_keeps_roster (now : string) (survey : SurveySubmission)
    (fs : FS) :
  EMPLOYEES_CSV (after (submit_survey now survey) fs) = EMPLOYEES_CSV fs.
Proof.
  unfold after.
  destruct (Py.contains (Py.zfill 8 (employeeNumber survey))
              (roster_numbers fs)) eqn:H.
  - now rewrite (submit_survey_accepts now survey fs H).
  - destruct (submit_survey_rejects now survey fs H) as [e He].
    now rewrite He.
Qed.

Lemma roster_numbers_of_roster (fs1 fs2 : FS) :
  EMPLOYEES_CSV fs1 = EMPLOYEES_CSV fs2 ->
  roster_numbers fs1 = roster_numbers fs2.
Proof.
  destruct fs1 as [r1 s1], fs2 as [r2 s2]. simpl. intros <-.
  destruct r1; reflexivity.
Qed.


Lemma submit_all_keeps_roster (reqs : list (string * SurveySubmission)) :
  forall fs : FS, EMPLOYEES_CSV (submit_all reqs fs) = EMPLOYEES_CSV fs.
Proof.
  induction reqs as [|[now survey] reqs IH]; intros fs; simpl.
  - reflexivity.
  - rewrite IH. apply submit_survey_keeps_roster.
Qed.

(** X5: no submission, accepted or rejected, changes the roster file; so
    after any run of submissions the roster check gives every request the
    verdict it would have had before the run. *)
Theorem submissions_keep_the_roster :
  forall (reqs : list (string * SurveySubmission)) (fs : FS)
         (req : string * SurveySubmission),
    EMPLOYEES_CSV (submit_all reqs fs) = EMPLOYEES_CSV fs
    /\ outcome load_employees (submit_all reqs fs) =
       outcome load_employees fs
    /\ accepted (submit_all reqs fs) req = accepted fs req.
Proof.
  intros reqs fs req.
  pose proof (submit_all_keeps_roster reqs fs) as H.
  split; [exact H|]. split.
  - destruct (submit_all reqs fs) as [r1 s1], fs as [r2 s2].
    simpl in H. subst r1. destruct r2; reflexivity.
  - unfold accepted. f_equal. now apply roster_numbers_of_roster.
Qed.


(** ** Startup *)

Lemma startup_event_runs (fs : FS) :
  startup_event fs =
  (Return tt,
   mkFS (Some match EMPLOYEES_CSV fs with
              | Some roster => roster
              | None => sample_data
              end)
        (Some match SURVEY_DATA_CSV fs with
              | Some df => df
              | None => with_columns headers
              end)).
Proof. destruct fs as [[roster|] [df|]]; reflexivity. Qed.

(** X8: [startup_event] never raises and never overwrites.  A file that
    exists is kept as it is, a file that is absent is created (the roster
    from the sample data, the store with the 11 headers and no record), so
    both files exist afterwards, the records read back are the same as
    before, and a second startup changes nothing. *)
Theorem startup_creates_without_overwriting :
  forall fs : FS,
    outcome startup_event fs = Return tt
    /\ (forall roster, EMPLOYEES_CSV fs = Some roster ->
                       EMPLOYEES_CSV (after startup_event fs) = Some roster)
    /\ (forall df, SURVEY_DATA_CSV fs = Some df ->
                   SURVEY_DATA_CSV (after startup_event fs) = Some df)
    /\ (EMPLOYEES_CSV fs = None ->
        EMPLOYEES_CSV (after startup_event fs) = Some sample_data)
    /\ (SURVEY_DATA_CSV fs = None ->
        SURVEY_DATA_CSV (after startup_event fs) =
        Some (mkDataFrame headers []))
    /\ readAll (after startup_event fs) = readAll fs
    /\ after startup_event (after startup_event fs) = after startup_event fs.
Proof.
  intros fs. unfold outcome, after. rewrite !startup_event_runs.
  destruct fs as [[roster|] [df|]]; cbn;
    refine (conj _ (conj _ (conj _ (conj _ (conj _ (conj _ _))))));
    try reflexivity; try discriminate; intros ? H; exact H.
Qed.

Lemma startup_creates_without_overwriting_witness :
  let fs := mkFS (Some [(Some "70098", Some "Aye Aye Tun")]) None in
  EMPLOYEES_CSV (after startup_event fs) =
    Some [(Some "70098", Some "Aye Aye Tun")]
  /\ SURVEY_DATA_CSV (after startup_event fs) = Some (mkDataFrame headers []).
Proof.
  intros fs.
  destruct (startup_creates_without_overwriting fs)
    as (_ & Hroster & _ & _ & Hstore & _).
  split; [apply Hroster | apply Hstore]; reflexivity.
Defined.

(** ** Stores written by the service *)





Lemma statistics_of_numeric_frame (roster : option (list roster_row))
    (df : DataFrame) :
  Pd.empty df = false ->
  numeric_frame df ->
  exists a,
    outcome get_survey_statistics (mkFS roster (Some df)) =
    Return (Full (length (rows df))
              (if has_column "Gender" df
               then Stats.value_counts (series "Gender" df) else [])
              a
              (if has_column "BMI Category" df
               then Stats.value_counts (series "BMI Category" df) else [])).
Proof.
  intros He (Hage & Hbmi & Hwaist & Hweight & Hf & Hi).
  destruct (average_of_column "Age" df Hage) as (v1 & E1 & _).
  destruct (average_of_column "BMI" df Hbmi) as (v2 & E2 & _).
  destruct (average_of_column _ df Hwaist) as (v3 & E3 & _).
  destruct (average_of_column _ df Hweight) as (v4 & E4 & _).
  destruct (average_height_numeric df Hf Hi) as (ts & h & _ & _ & E5 & _).
  exists (mkAverages v1 v2 v3 v4 (fst h) (snd h)).
  unfold get_survey_statistics. run.
  rewrite He, E1, E2, E3, E4, E5. reflexivity.
Qed.



(** ** Rounding *)

Lemma rint_comp (p q : Q) : p == q -> Py.rint p = Py.rint q.
Proof.
  intros H. unfold Py.rint.
  assert (Hf : Qfloor p = Qfloor q) by (now rewrite H).
  assert (Hc : (p - inject_Z (Qfloor p) ?= 1 # 2)%Q =
               (q - inject_Z (Qfloor q) ?= 1 # 2)%Q).
  { rewrite Hf. now rewrite H. }
  cbv zeta. now rewrite Hc, Hf.
Qed.

Lemma rint_Z (z : Z) : Py.rint (inject_Z z) = z.
Proof.
  unfold Py.rint. cbv zeta. rewrite Qfloor_Z.
  assert (H : inject_Z z - inject_Z z < 1 # 2) by lra.
  rewrite (proj1 (Qlt_alt _ _) H). reflexivity.
Qed.

Lemma rint_near (q : Q) :
  q - (1 # 2) <= inject_Z (Py.rint q) /\ inject_Z (Py.rint q) <= q + (1 # 2).
Proof.
  unfold Py.rint. cbv zeta.
  pose proof (Qfloor_le q) as Hlo.
  pose proof (Qlt_floor q) as Hhi.
  rewrite inject_Z_plus in Hhi. change (inject_Z 1) with 1 in Hhi.
  destruct (q - inject_Z (Qfloor q) ?= 1 # 2)%Q eqn:E.
  - apply (proj2 (Qeq_alt _ _)) in E.
    destruct (Z.even (Qfloor q));
      [|rewrite inject_Z_plus; change (inject_Z 1) with 1]; lra.
  - apply (proj2 (Qlt_alt _ _)) in E. lra.
  - apply (proj2 (Qgt_alt _ _)) in E.
    rewrite inject_Z_plus. change (inject_Z 1) with 1. lra.
Qed.

Lemma round1_value (q : Q) :
  Py.round1 q == inject_Z (Py.rint (q * 10)) / 10.
Proof. unfold Py.round1. apply Qred_correct. Qed.

Lemma round1_comp (p q : Q) : p == q -> Py.round1 p = Py.round1 q.
Proof.
  intros H. unfold Py.round1.
  rewrite (rint_comp (p * 10) (q * 10)) by (now rewrite H).
  reflexivity.
Qed.

Lemma round1_near (q : Q) :
  q - (1 # 20) <= Py.round1 q /\ Py.round1 q <= q + (1 # 20).
Proof.
  rewrite round1_value.
  destruct (rint_near (q * 10)) as [Hlo Hhi].
  split.
  - apply Qle_shift_div_l; [reflexivity|]. lra.
  - apply Qle_shift_div_r; [reflexivity|]. lra.
Qed.

Lemma round1_tenths (k : Z) :
  Py.round1 (inject_Z k / 10) == inject_Z k / 10.
Proof.
  rewrite round1_value.
  rewrite (rint_comp (inject_Z k / 10 * 10) (inject_Z k)) by (field).
  now rewrite rint_Z.
Qed.


Lemma mod12_value (a : Q) :
  Py.mod12 a == a - 12 * inject_Z (Py.floordiv12 a).
Proof. unfold Py.mod12. apply Qred_correct. Qed.

Lemma height_parts (q : Q) :
  let a := Py.round1 q in
  let feet := Py.floordiv12 a in
  let inches := Py.round1 (Py.mod12 a) in
  0 < a ->
  (0 <= feet)%Z /\ 0 <= inches /\ inches < 12
  /\ inject_Z feet * 12 + inches == a.
Proof.
  intros a feet inches Hpos.
  pose proof (round1_value q) as Ha. fold a in Ha.
  set (k := Py.rint (q * 10)) in Ha.
  pose proof (Qfloor_le (a / 12)) as Hlo.
  pose proof (Qlt_floor (a / 12)) as Hhi.
  rewrite inject_Z_plus in Hhi. change (inject_Z 1) with 1 in Hhi.
  fold (Py.floordiv12 a) in Hlo, Hhi. fold feet in Hlo, Hhi.
  assert (Hm : Py.mod12 a == inject_Z (k - 120 * feet) / 10).
  { rewrite mod12_value. fold feet.
    unfold Zminus. rewrite inject_Z_plus, inject_Z_opp, inject_Z_mult, Ha.
    change (inject_Z 120) with 120. field. }
  assert (Hi : inches == a - 12 * inject_Z feet).
  { unfold inches. rewrite (round1_comp _ _ Hm), round1_tenths.
    rewrite <- Hm. apply mod12_value. }
  assert (H12 : inject_Z feet * 12 <= a /\ a < inject_Z feet * 12 + 12).
  { split.
    - apply (Qmult_le_r _ _ (/ 12)); [reflexivity|].
      setoid_replace (inject_Z feet * 12 * / 12) with (inject_Z feet) by field.
      exact Hlo.
    - apply (Qmult_lt_r _ _ (/ 12)); [reflexivity|].
      setoid_replace ((inject_Z feet * 12 + 12) * / 12)
        with (inject_Z feet + 1) by field.
      exact Hhi. }
  split.
  - change 0%Z with (Qfloor 0). apply Qfloor_resp_le.
    apply Qle_shift_div_l; [reflexivity|]. lra.
  - rewrite Hi. repeat split; lra.
Qed.



(** ** Distributions *)

Lemma bump_counted (c : cell) (acc : list (cell * nat)) :
  counted (Stats.bump c acc) = S (counted acc).
Proof.
  induction acc as [|[k n] acc IH]; simpl; [reflexivity|].
  destruct (Stats.cell_eqb k c); simpl; lia.
Qed.

Lemma bump_entries (c : cell) (acc : list (cell * nat)) :
  Stats.isna c = false ->
  Forall (fun p => (1 <= snd p)%nat /\ Stats.isna (fst p) = false) acc ->
  Forall (fun p => (1 <= snd p)%nat /\ Stats.isna (fst p) = false)
    (Stats.bump c acc).
Proof.
  intros Hc. induction 1 as [|[k n] acc [Hn Hk] Hacc IH]; simpl.
  - constructor; [split; [simpl; lia | exact Hc] | constructor].
  - simpl in Hn, Hk. destruct (Stats.cell_eqb k c).
    + constructor; [split; [simpl; lia | exact Hk] | exact Hacc].
    + constructor; [split; [exact Hn | exact Hk] | exact IH].
Qed.

Lemma value_counts_from (s : list cell) :
  forall acc : list (cell * nat),
    Forall (fun p => (1 <= snd p)%nat /\ Stats.isna (fst p) = false) acc ->
    let d := fold_left
               (fun acc c => if Stats.isna c then acc else Stats.bump c acc)
               s acc in
    counted d = (counted acc + filled s)%nat
    /\ Forall (fun p => (1 <= snd p)%nat /\ Stats.isna (fst p) = false) d.
Proof.
  unfold filled. induction s as [|c s IH]; intros acc Hacc; simpl.
  - split; [lia | exact Hacc].
  - destruct (Stats.isna c) eqn:Hc; simpl.
    + now apply IH.
    + destruct (IH (Stats.bump c acc) (bump_entries c acc Hc Hacc))
        as [Hsum Hall].
      split; [|exact Hall].
      rewrite Hsum, bump_counted. lia.
Qed.

Lemma value_counts_counted (s : list cell) :
  counted (Stats.value_counts s) = filled s
  /\ Forall (fun p => (1 <= snd p)%nat /\ Stats.isna (fst p) = false)
       (Stats.value_counts s).
Proof.
  destruct (value_counts_from s [] (Forall_nil _)) as [Hsum Hall].
  split; [exact Hsum | exact Hall].
Qed.

Lemma filled_le (c : string) (df : DataFrame) :
  (filled (series c df) <= length (rows df))%nat.
Proof.
  unfold filled, series.
  etransitivity; [apply filter_length_le|]. now rewrite length_map.
Qed.

(** X12: the gender and BMI-category distributions count every record
    once.  On a store with records and number columns the counts of a
    distribution add up to the number of records that have a value in the
    column (none when the column is absent), which is at most the total;
    every count is at least 1 and no key is a missing value. *)
Theorem distributions_count_each_record_once :
  forall (roster : option (list roster_row)) (df : DataFrame),
    Pd.empty df = false ->
    numeric_frame df ->
    exists genders categories,
      reported_distributions
        (outcome get_survey_statistics (mkFS roster (Some df))) =
        Some (genders, categories)
      /\ counted genders =
           (if has_column "Gender" df
            then filled (series "Gender" df) else 0%nat)
      /\ counted categories =
           (if has_column "BMI Category" df
            then filled (series "BMI Category" df) else 0%nat)
      /\ (counted genders <= length (rows df))%nat
      /\ (counted categories <= length (rows df))%nat
      /\ Forall (fun p => (1 <= snd p)%nat /\ Stats.isna (fst p) = false)
           (genders ++ categories).
Proof.
  intros roster df He Hn.
  destruct (statistics_of_numeric_frame roster df He Hn) as (a & Hrun).
  rewrite Hrun. cbn [reported_distributions].
  eexists. eexists. split; [reflexivity|].
  assert (Hg : forall c,
             counted (if has_column c df
                      then Stats.value_counts (series c df) else []) =
             (if has_column c df then filled (series c df) else 0%nat)
             /\ Forall (fun p => (1 <= snd p)%nat
                                 /\ Stats.isna (fst p) = false)
                  (if has_column c df
                   then Stats.value_counts (series c df) else [])).
  { intros c. destruct (has_column c df).
    - apply value_counts_counted.
    - split; [reflexivity | constructor]. }
  destruct (Hg "Gender") as [Hg1 Hg2].
  destruct (Hg "BMI Category") as [Hc1 Hc2].
  split; [exact Hg1|]. split; [exact Hc1|].
  split.
  { rewrite Hg1. destruct (has_column "Gender" df);
      [apply filled_le | lia]. }
  split.
  { rewrite Hc1. destruct (has_column "BMI Category" df);
      [apply filled_le | lia]. }
  apply Forall_app. split; assumption.
Qed.

Lemma distributions_count_each_record_once_witness :
  Pd.empty crew = false
  /\ numeric_frame crew
  /\ exists genders categories,
       reported_distributions
         (outcome get_survey_statistics (mkFS None (Some crew))) =
         Some (genders, categories)
       /\ counted genders = 30%nat.
Proof.
  assert (Hn : numeric_frame crew) by (repeat split; reflexivity).
  split; [reflexivity|]. split; [exact Hn|].
  destruct (distributions_count_each_record_once None crew eq_refl Hn)
    as (genders & categories & Hrun & Hg & _).
  exists genders, categories. split; [exact Hrun|].
  rewrite Hg. reflexivity.
Defined.

(** ** The diagnostic endpoint *)

Lemma keys_of_aligned (cols : list string) (r : record) :
  map fst (align cols r) = cols.
Proof.
  unfold align. rewrite map_map. simpl. apply map_id.
Qed.

(** ** Column widths of the spreadsheet *)







(** ** Reading the text download back *)

Lemma string_app_assoc (a b c : string) :
  ((a ++ b) ++ c)%string = (a ++ (b ++ c))%string.
Proof. induction a as [|x a IH]; simpl; [reflexivity | now rewrite IH]. Qed.

Lemma string_app_nil (a : string) : (a ++ EmptyString)%string = a.
Proof. induction a as [|x a IH]; simpl; [reflexivity | now rewrite IH]. Qed.

Lemma run_escape (s : string) :
  forall (rest cur : string) (row : list string) (done : list (list string)),
    Reader.run (Csv.escape s ++ rest)%string Reader.InField cur row done =
    Reader.run rest Reader.InField (cur ++ s)%string row done.
Proof.
  induction s as [|c s IH]; intros rest cur row done.
  - simpl. now rewrite string_app_nil.
  - cbn [Csv.escape].
    replace (cur ++ String c s)%string with (Reader.snoc cur c ++ s)%string
      by (unfold Reader.snoc; now rewrite string_app_assoc).
    destruct (Ascii.eqb c Csv.dquote) eqn:E.
    + apply Ascii.eqb_eq in E. subst c.
      cbn [String.append Reader.run]. rewrite !Ascii.eqb_refl. apply IH.
    + cbn [String.append Reader.run]. rewrite E. apply IH.
Qed.

Lemma run_quoted (s rest : string) (row : list string)
    (done : list (list string)) :
  Reader.run (Csv.quoted s ++ rest)%string Reader.FieldStart EmptyString
    row done =
  Reader.run rest Reader.AfterQuote s row done.
Proof.
  unfold Csv.quoted. cbn [String.append Reader.run].
  rewrite Ascii.eqb_refl, string_app_assoc, run_escape.
  cbn [String.append Reader.run]. now rewrite Ascii.eqb_refl.
Qed.

Lemma run_fields (fields : list string) :
  forall (f rest : string) (row : list string) (done : list (list string)),
    Reader.run
      (String.concat "," (map Csv.quoted (f :: fields))
       ++ String Csv.newline rest)%string
      Reader.FieldStart EmptyString row done =
    Reader.run rest Reader.LineStart EmptyString []
      (done ++ [row ++ f :: fields]).
Proof.
  induction fields as [|g fields IH]; intros f rest row done.
  - cbn [map String.concat]. rewrite run_quoted. reflexivity.
  - change (String.concat "," (map Csv.quoted (f :: g :: fields)))
      with (Csv.quoted f ++ "," ++
            String.concat "," (map Csv.quoted (g :: fields)))%string.
    rewrite string_app_assoc, run_quoted.
    cbn [String.append Reader.run].
    change (Ascii.eqb "," Csv.dquote) with false.
    change (Ascii.eqb "," ",") with true. cbv iota.
    rewrite IH, <- app_assoc. reflexivity.
Qed.

Lemma run_line (fields : list string) (rest : string)
    (done : list (list string)) :
  Reader.run (Csv.line 1 fields ++ rest)%string Reader.LineStart EmptyString
    [] done =
  Reader.run rest Reader.LineStart EmptyString [] (done ++ [fields]).
Proof.
  rewrite line_quote_all, string_app_assoc. cbn [String.append].
  destruct fields as [|f fields]; [reflexivity|].
  change (done ++ [f :: fields]) with (done ++ [[] ++ f :: fields]).
  rewrite <- (run_fields fields f rest [] done).
  destruct fields; reflexivity.
Qed.

Lemma concat_lines (l : string) (ls : list string) :
  String.concat EmptyString (l :: ls) =
  (l ++ String.concat EmptyString ls)%string.
Proof.
  destruct ls as [|m ls]; simpl; [now rewrite string_app_nil | reflexivity].
Qed.

Lemma run_write (table : list (list string)) :
  forall done : list (list string),
    Reader.run (Csv.write 1 table) Reader.LineStart EmptyString [] done =
    Some (done ++ table).
Proof.
  unfold Csv.write.
  induction table as [|fields table IH]; intros done.
  - simpl. now rewrite app_nil_r.
  - cbn [map]. rewrite concat_lines, run_line, IH, <- app_assoc.
    reflexivity.
Qed.

(** X16: the text download loses nothing.  Read back by a reader of quoted
    CSV, the text gives exactly the 11 column names and then, record by
    record, the texts of the 11 values, whatever commas, quotes or
    newlines they hold; so two stores whose downloads are the same text
    have the same values in every exported cell, as text. *)
Theorem text_download_reads_back :
  forall (float_repr : Q -> string) (timestamp : string)
         (roster : option (list roster_row)) (df : DataFrame),
    Pd.empty df = false ->
    let fields_of (r : record) :=
      map (fun c => cell_text float_repr (get c r)) expected_columns in
    exists text,
      outcome (download_survey_responses float_repr timestamp)
        (mkFS roster (Some df)) = Return text
      /\ Reader.read (content text) =
           Some (expected_columns :: map fields_of (rows df))
      /\ forall (timestamp' : string) (roster' : option (list roster_row))
                (df' : DataFrame) (text' : StreamingResponse string),
           Pd.empty df' = false ->
           outcome (download_survey_responses float_repr timestamp')
             (mkFS roster' (Some df')) = Return text' ->
           content text' = content text ->
           map fields_of (rows df') = map fields_of (rows df).
Proof.
  intros float_repr timestamp roster df He fields_of.
  assert (Hread : forall ts ro d,
             Pd.empty d = false ->
             exists t,
               outcome (download_survey_responses float_repr ts)
                 (mkFS ro (Some d)) = Return t
               /\ Reader.read (content t) =
                    Some (expected_columns :: map fields_of (rows d))).
  { intros ts ro d Hd. eexists.
    split; [apply (download_csv_runs float_repr ts ro d Hd)|].
    cbn [content]. unfold to_csv, Reader.read.
    rewrite run_write, csv_table_reindex. reflexivity. }
  destruct (Hread timestamp roster df He) as (text & Hrun & Hback).
  exists text. split; [exact Hrun|]. split; [exact Hback|].
  intros ts' ro' df' text' He' Hrun' Hsame.
  destruct (Hread ts' ro' df' He') as (t & Ht & Hback').
  rewrite Hrun' in Ht. injection Ht as <-.
  rewrite Hsame, Hback in Hback'. now injection Hback'.
Qed.

Lemma text_download_reads_back_witness :
  exists text,
    outcome (download_survey_responses (fun _ => "0.0") "20240501_090000")
      (mkFS None (Some crew)) = Return text
    /\ option_map (@length (list string)) (Reader.read (content text)) =
       Some 31%nat.
Proof.
  destruct (text_download_reads_back (fun _ => "0.0") "20240501_090000"
              None crew eq_refl)
    as (text & Hrun & Hback & _).
  exists text. split; [exact Hrun|].
  rewrite Hback. reflexivity.
Defined.

(** ** Records of accepted submissions *)







(** ** Columns of the stored table *)

Lemma contains_app_other (c y : string) (xs : list string) :
  c <> y -> Py.contains c (xs ++ [y]) = Py.contains c xs.
Proof.
  intros Hne. unfold Py.contains. rewrite existsb_app. simpl.
  destruct (String.eqb_spec c y); [contradiction|].
  now rewrite !orb_false_r.
Qed.

Lemma union_adds_lacking (ys : list string) :
  NoDup ys ->
  forall xs : list string,
    union xs ys = xs ++ filter (fun c => negb (Py.contains c xs)) ys.
Proof.
  induction 1 as [|y ys Hy Hys IH]; intros xs; simpl.
  - now rewrite app_nil_r.
  - destruct (Py.contains y xs) eqn:E; simpl.
    + apply IH.
    + rewrite IH, <- app_assoc. simpl. do 2 f_equal.
      apply filter_ext_in. intros c Hc. f_equal.
      apply contains_app_other. intros ->. contradiction.
Qed.

Lemma filter_none {A : Type} (f : A -> bool) (l : list A) :
  (forall x, In x l -> f x = false) -> filter f l = [].
Proof.
  induction l as [|x l IH]; intros H; simpl; [reflexivity|].
  rewrite (H x (or_introl eq_refl)). apply IH.
  intros y Hy. apply H. now right.
Qed.

Lemma headers_distinct : NoDup headers.
Proof.
  unfold headers.
  repeat (constructor; [simpl; intuition discriminate|]).
  constructor.
Qed.

(** X6: an accepted submission never drops, renames or reorders a column
    of the stored table.  The columns of the table written are the old
    ones, in their order, followed by exactly those of the 11 survey
    columns that the table lacked, in the order of the 11; a table that has
    the 11 columns keeps exactly its columns; and the table written has
    one more row. *)
Theorem accepted_submission_keeps_columns :
  forall (now : string) (survey : SurveySubmission) (fs : FS)
         (df : DataFrame),
    SURVEY_DATA_CSV fs = Some df ->
    accepted fs (now, survey) = true ->
    exists df',
      SURVEY_DATA_CSV (after (submit_survey now survey) fs) = Some df'
      /\ columns df' = columns df ++ lacking (columns df)
      /\ (forall c, In c headers -> In c (columns df'))
      /\ ((forall c, In c headers -> In c (columns df)) ->
          columns df' = columns df)
      /\ length (rows df') = S (length (rows df)).
Proof.
  intros now survey fs df Hdf Hacc.
  unfold accepted in Hacc; simpl in Hacc.
  unfold after. rewrite (submit_survey_accepts now survey fs Hacc).
  rewrite Hdf. cbn [snd SURVEY_DATA_CSV].
  unfold updated. rewrite from_records_survey_data.
  unfold concat. cbn [columns rows].
  eexists. split; [reflexivity|]. cbn [columns rows].
  pose proof (union_adds_lacking headers headers_distinct (columns df))
    as Heq. fold (lacking (columns df)) in Heq.
  split; [exact Heq|]. split.
  - intros c Hc. now apply union_keeps_right.
  - split.
    + intros Hall. rewrite Heq. unfold lacking.
      rewrite filter_none; [apply app_nil_r|].
      intros c Hc. apply negb_false_iff, contains_In. now apply Hall.
    + rewrite length_map, length_app. simpl. lia.
Qed.

Lemma accepted_submission_keeps_columns_witness :
  let fs := mkFS (Some sample_data)
              (Some (mkDataFrame ["EmployeeNumber"; "Remark"; "BMI"]
                       [[("EmployeeNumber", Str "00070081");
                         ("Remark", Str "first"); ("BMI", Float (206 # 10))]]))
  in
  let request :=
    mkSurveySubmission "70098" "Aye Aye Tun" "Female" 30 (31 # 1) 5 3
      (128 # 1) (243 # 10) "Normal" in
  exists df',
    SURVEY_DATA_CSV (after (submit_survey "2024-05-01 09:00:00" request) fs)
      = Some df'
    /\ columns df' =
       [ "EmployeeNumber"; "Remark"; "BMI"; "SubmissionDate"; "EmployeeName";
         "Gender"; "Age"; "Waist Circumference (inches)"; "Height - Feet";
         "Height - Inches"; "Weight (lb)"; "BMI Category" ]
    /\ length (rows df') = 2%nat.
Proof.
  intros fs request.
  destruct (accepted_submission_keeps_columns "2024-05-01 09:00:00" request
              fs _ eq_refl eq_refl)
    as (df' & Hdf & Hcols & _ & _ & Hrows).
  exists df'. split; [exact Hdf|]. split; [exact Hcols | exact Hrows].
Defined.

(** ** Means of whole numbers *)

Lemma round1_nearest_tenth (mean : Q) : nearest_tenth mean (Py.round1 mean).
Proof.
  destruct (round1_near mean) as [Hlo Hhi].
  split; [|split; assumption].
  exists (Py.rint (mean * 10)). apply round1_value.
Qed.

Lemma whole_of_number (c : cell) (z : Z) :
  whole_of c = Some z ->
  exists q, Stats.number c = Some q /\ q == inject_Z z.
Proof.
  destruct c as [|t|x|q]; simpl; try discriminate.
  - intros [= ->]. eexists. split; reflexivity.
  - destruct (Qeq_bool q (inject_Z (Qfloor q))) eqn:E; [|discriminate].
    intros [= <-]. exists q. split; [reflexivity|].
    now apply Qeq_bool_iff.
Qed.

Lemma whole_number_cases (c : cell) :
  whole_number c = true ->
  c = NaN \/ exists z, whole_of c = Some z.
Proof.
  unfold whole_number. destruct c as [|t|x|q]; simpl; try discriminate.
  - now left.
  - intros _. right. eexists. reflexivity.
  - destruct (Qeq_bool q (inject_Z (Qfloor q))); [|discriminate].
    intros _. right. eexists. reflexivity.
Qed.



Lemma height_entry_of_whole (r : record) :
  whole_number (get "Height - Feet" r) = true ->
  whole_number (get "Height - Inches" r) = true ->
  exists t,
    Stats.height_entry r = Return t
    /\ Stats.is_text t = false
    /\ match whole_of (get "Height - Feet" r),
             whole_of (get "Height - Inches" r) with
       | Some f, Some i =>
           exists q, Stats.number t = Some q /\ q == inject_Z (f * 12 + i)
       | _, _ => t = NaN
       end.
Proof.
  intros Hf Hi. unfold Stats.height_entry.
  destruct (whole_number_cases _ Hf) as [Ef|[f Ef]];
    destruct (whole_number_cases _ Hi) as [Ei|[i Ei]].
  - rewrite Ef, Ei. eexists. repeat split.
  - rewrite Ef. simpl. destruct (get "Height - Inches" r);
      try discriminate; eexists; repeat split.
  - rewrite Ei, Ef. simpl. destruct (get "Height - Feet" r);
      try discriminate; eexists; repeat split.
  - destruct (whole_of_number _ f Ef) as (qf & Hqf & Hf').
    destruct (whole_of_number _ i Ei) as (qi & Hqi & Hi').
    rewrite Ef, Ei.
    destruct (get "Height - Feet" r) as [|sf|zf|xf];
      destruct (get "Height - Inches" r) as [|si|zi|xi];
      try discriminate; simpl in Hqf, Hqi;
      injection Hqf as <-; injection Hqi as <-; simpl;
      eexists; (split; [reflexivity|]); (split; [reflexivity|]);
      eexists; (split; [reflexivity|]);
      rewrite !inject_Z_plus, !inject_Z_mult; change (inject_Z 12) with 12;
      rewrite <- ?Hf', <- ?Hi'; reflexivity.
Qed.

Lemma height_series_of_whole (rs : list record) :
  forallb whole_number (map (get "Height - Feet") rs) = true ->
  forallb whole_number (map (get "Height - Inches") rs) = true ->
  exists totals,
    Stats.height_series rs = Return totals
    /\ Stats.arithmetic_mean (Stats.present totals) ==
       mean_of (whole_heights rs)
    /\ Stats.all_na totals =
       match whole_heights rs with [] => true | _ => false end.
Proof.
  intros Hf Hi.
  assert (Hall : exists totals,
             Stats.height_series rs = Return totals
             /\ Stats.total (Stats.present totals) ==
                inject_Z (fold_right Z.add 0%Z (whole_heights rs))
             /\ length (Stats.present totals) = length (whole_heights rs)
             /\ Stats.all_na totals =
                match whole_heights rs with [] => true | _ => false end).
  { induction rs as [|r rs IH]; cbn [map forallb] in *.
    - exists []. repeat split; reflexivity.
    - apply andb_true_iff in Hf. destruct Hf as [Hf Hfs].
      apply andb_true_iff in Hi. destruct Hi as [Hi His].
      destruct (IH Hfs His) as (ts & Hts & Ht & Hl & Hna).
      destruct (height_entry_of_whole r Hf Hi) as (t & Ht1 & Htext & Hval).
      exists (t :: ts). cbn [Stats.height_series whole_heights].
      rewrite Ht1, Hts. split; [reflexivity|].
      destruct (whole_of (get "Height - Feet" r)) as [f|];
        [destruct (whole_of (get "Height - Inches" r)) as [i|]|].
      + destruct Hval as (q & Hq & Hqz).
        cbn [Stats.present Stats.all_na forallb]. rewrite Hq.
        cbn [Stats.total fold_right length].
        destruct t; try discriminate; simpl;
          (split; [now rewrite Ht, Hqz, <- inject_Z_plus|]);
          (split; [congruence|reflexivity]).
      + subst t. simpl. repeat split; assumption.
      + subst t. simpl. repeat split; assumption. }
  destruct Hall as (ts & Hts & Ht & Hl & Hna).
  exists ts. split; [exact Hts|]. split; [|exact Hna].
  unfold Stats.arithmetic_mean, mean_of. now rewrite Ht, Hl.
Qed.

(** ** Heights *)

Lemma whole_column_cells (s : list cell) :
  whole_column s = true -> forallb whole_number s = true.
Proof. unfold whole_column. intros H. now apply andb_true_iff in H. Qed.

(** C8, as amended: on a store with records whose numeric columns hold
    numbers and whose height columns hold, in at most a million records,
    whole numbers of at most a million in absolute value, the statistics
    take each record's height in inches as feet * 12 + inches, average the
    records that have both parts, and round that average to one decimal
    first; feet is the floor of the rounded average over 12 and inches is
    what is left of the rounded average, a number from 0 up to, but not
    reaching, 12.  Feet and inches are both 0 when a height column is not
    there, when no record has both parts, or when the rounded average is
    not positive. *)
Theorem statistics_height_from_rounded_mean :
  forall (roster : option (list roster_row)) (df : DataFrame),
    Pd.empty df = false ->
    numeric_frame df ->
    plain_heights df = true ->
    let inches_of_records := whole_heights (rows df) in
    let both_columns :=
      (has_column "Height - Feet" df
       && has_column "Height - Inches" df)%bool in
    exists genders a categories,
      outcome get_survey_statistics (mkFS roster (Some df)) =
        Return (Full (length (rows df)) genders a categories)
      /\ (both_columns = false \/ inches_of_records = [] ->
          avg_height_feet a = 0%Z /\ avg_height_inches a = Int 0)
      /\ (both_columns = true ->
          inches_of_records <> [] ->
          exists rounded,
            nearest_tenth (mean_of inches_of_records) rounded
            /\ (0 < rounded ->
                avg_height_feet a = Qfloor (rounded / 12)
                /\ exists i,
                     avg_height_inches a = Float i
                     /\ i == rounded - 12 * inject_Z (Qfloor (rounded / 12))
                     /\ 0 <= i /\ i < 12)
            /\ (rounded <= 0 ->
                avg_height_feet a = 0%Z /\ avg_height_inches a = Int 0)).
Proof.
  intros roster df He Hn Hplain inches_of_records both_columns.
  pose proof Hn as (Hage & Hbmi & Hwaist & Hweight & Hf & Hi).
  destruct (average_of_column "Age" df Hage) as (v1 & E1 & _).
  destruct (average_of_column "BMI" df Hbmi) as (v2 & E2 & _).
  destruct (average_of_column _ df Hwaist) as (v3 & E3 & _).
  destruct (average_of_column _ df Hweight) as (v4 & E4 & _).
  destruct (average_height_numeric df Hf Hi)
    as (ts & [feet inches] & Hts & _ & E5 & Hzero & Hdata).
  destruct (statistics_with_records roster df v1 v2 v3 v4 (feet, inches)
              He E1 E2 E3 E4 E5) as (genders & categories & Hrun).
  unfold plain_heights in Hplain. apply andb_true_iff in Hplain.
  destruct Hplain as [Hpf Hpi].
  destruct (height_series_of_whole (rows df)
              (whole_column_cells _ Hpf) (whole_column_cells _ Hpi))
    as (ts' & Hts' & Hm & Hna).
  rewrite Hts in Hts'. injection Hts' as <-.
  fold inches_of_records in Hm, Hna. fold both_columns in Hzero, Hdata.
  exists genders, (mkAverages v1 v2 v3 v4 feet inches), categories.
  split; [exact Hrun|].
  cbn [avg_height_feet avg_height_inches].
  assert (Hround :
            Py.round1 (Stats.arithmetic_mean (Stats.present ts)) =
            Py.round1 (mean_of inches_of_records)).
  { apply round1_comp, Hm. }
  rewrite Hround in Hdata.
  split.
  - intros [Hc|Hnone].
    + injection (Hzero (or_introl Hc)) as -> ->. split; reflexivity.
    + rewrite Hnone in Hna.
      injection (Hzero (or_intror Hna)) as -> ->. split; reflexivity.
  - intros Hc Hsome.
    assert (Hna' : Stats.all_na ts = false).
    { rewrite Hna. destruct inches_of_records; [congruence|reflexivity]. }
    destruct (Hdata Hc Hna') as [Hpos Hneg].
    exists (Py.round1 (mean_of inches_of_records)).
    split; [apply round1_nearest_tenth|]. split.
    + intros Hlt. injection (Hpos Hlt) as -> ->.
      destruct (height_parts (mean_of inches_of_records) Hlt)
        as (_ & Hi0 & Hi12 & Hsum).
      split; [reflexivity|].
      eexists. split; [reflexivity|].
      split; [|split; assumption].
      unfold Py.floordiv12 in Hsum. lra.
    + intros Hle. injection (Hneg Hle) as -> ->. split; reflexivity.
Qed.

Lemma statistics_height_from_rounded_mean_witness :
  Pd.empty crew = false
  /\ numeric_frame crew
  /\ plain_heights crew = true
  /\ exists genders a categories,
       outcome get_survey_statistics (mkFS None (Some crew)) =
         Return (Full 30 genders a categories)
       /\ avg_height_feet a = 6%Z
       /\ avg_height_inches a = Float 0
       /\ exists rounded,
            nearest_tenth (mean_of (whole_heights (rows crew))) rounded
            /\ (0 < rounded -> avg_height_feet a = Qfloor (rounded / 12)).
Proof.
  assert (Hn : numeric_frame crew) by (repeat split; reflexivity).
  split; [reflexivity|]. split; [exact Hn|]. split; [reflexivity|].
  destruct (statistics_height_from_rounded_mean None crew eq_refl Hn eq_refl)
    as (genders & a & categories & Hrun & _ & Hdata).
  exists genders, a, categories. split; [exact Hrun|].
  assert (Hcode : reported_height
                    (outcome get_survey_statistics (mkFS None (Some crew))) =
                  Some (6%Z, Float 0)) by (vm_compute; reflexivity).
  rewrite Hrun in Hcode. cbn [reported_height] in Hcode.
  injection Hcode as Hfeet Hinches.
  split; [exact Hfeet|]. split; [exact Hinches|].
  destruct (Hdata eq_refl) as (rounded & Hnear & Hpos & _).
  { vm_compute. discriminate. }
  exists rounded. split; [exact Hnear|].
  intros Hlt. apply (Hpos Hlt).
Defined.

(** ** Averages *)

(** X18: the parts of the statistics that involve no arithmetic.  Without
    a store file, or with a store of zero records, the answer is the
    message with total 0.  On a store with records whose numeric columns
    hold numbers the answer carries the number of records, and each of the
    averages of age, BMI, waist circumference and weight is the integer 0
    when its column is not there or holds no value, and a float
    otherwise. *)
Theorem statistics_defaults :
  (forall roster : option (list roster_row),
     outcome get_survey_statistics (mkFS roster None) =
       Return (NoData 0 "No survey data available"))
  /\ (forall (roster : option (list roster_row)) (df : DataFrame),
        Pd.empty df = true ->
        outcome get_survey_statistics (mkFS roster (Some df)) =
          Return (NoData 0 "No survey responses available"))
  /\ (forall (roster : option (list roster_row)) (df : DataFrame),
        Pd.empty df = false ->
        numeric_frame df ->
        let by_default (c : string) (v : cell) :=
          (has_column c df = false \/ Stats.all_na (series c df) = true ->
           v = Int 0)
          /\ (has_column c df = true ->
              Stats.all_na (series c df) = false ->
              exists q, v = Float q) in
        exists genders a categories,
          outcome get_survey_statistics (mkFS roster (Some df)) =
            Return (Full (length (rows df)) genders a categories)
          /\ by_default "Age" (avg_age a)
          /\ by_default "BMI" (avg_bmi a)
          /\ by_default "Waist Circumference (inches)"
               (avg_waist_circumference_inches a)
          /\ by_default "Weight (lb)" (avg_weight_lb a)).
Proof.
  split; [|split].
  - intros roster. reflexivity.
  - intros roster df H. unfold outcome.
    now rewrite statistics_without_records.
  - intros roster df He (Hage & Hbmi & Hwaist & Hweight & Hf & Hi) by_default.
    assert (Hdef : forall c v, reports_mean c df v -> by_default c v).
    { intros c v (Hzero & Hmean & _). split; [exact Hzero|].
      intros Hc Hna. eexists. now apply Hmean. }
    destruct (average_of_column "Age" df Hage) as (v1 & E1 & R1).
    destruct (average_of_column "BMI" df Hbmi) as (v2 & E2 & R2).
    destruct (average_of_column _ df Hwaist) as (v3 & E3 & R3).
    destruct (average_of_column _ df Hweight) as (v4 & E4 & R4).
    destruct (average_height_numeric df Hf Hi) as (ts & h & _ & _ & E5 & _).
    destruct (statistics_with_records roster df v1 v2 v3 v4 h He E1 E2 E3 E4 E5)
      as (genders & categories & Hrun).
    exists genders, (mkAverages v1 v2 v3 v4 (fst h) (snd h)), categories.
    split; [exact Hrun|]. cbn [avg_age avg_bmi avg_waist_circumference_inches
      avg_weight_lb]. auto.
Qed.

Lemma statistics_defaults_witness :
  let df := mkDataFrame ["Age"; "BMI"]
              [[("Age", Int 30); ("BMI", NaN)]; [("Age", Int 40); ("BMI", NaN)]]
  in
  exists genders a categories,
    outcome get_survey_statistics (mkFS None (Some df)) =
      Return (Full 2 genders a categories)
    /\ avg_bmi a = Int 0
    /\ avg_weight_lb a = Int 0
    /\ exists q, avg_age a = Float q.
Proof.
  intros df.
  assert (Hn : numeric_frame df) by (repeat split; reflexivity).
  destruct (proj2 (proj2 statistics_defaults) None df eq_refl Hn)
    as (genders & a & categories & Hrun & Hage & Hbmi & _ & Hweight).
  exists genders, a, categories. split; [exact Hrun|].
  split; [apply Hbmi; now right|].
  split; [apply Hweight; now left|].
  apply Hage; reflexivity.
Defined.




(** ** The diagnostic endpoint, as a handler *)

(** X13: [debug_csv] raises nothing and writes nothing: it returns one of
    its shapes.  Without a store file it returns its message; with one it
    returns the table's columns, the number of records
    [get_survey_responses] returns, and as sample at most two records,
    which for a table that has columns are the first two that
    [get_survey_responses] returns; every sample record has exactly the
    reported columns as keys.  The status the framework sends for the
    returned value is not part of the statement. *)
Theorem debug_csv_reports_the_store :
  forall (getsize : DataFrame -> nat) (fs : FS),
    after (debug_csv getsize) fs = fs
    /\ (SURVEY_DATA_CSV fs = None ->
        outcome (debug_csv getsize) fs =
          Return (DebugMessage "CSV file doesn't exist"))
    /\ (forall df, SURVEY_DATA_CSV fs = Some df ->
        exists sample,
          outcome (debug_csv getsize) fs =
            Return (DebugFile (columns df) (length (readAll fs)) sample
                      (getsize df))
          /\ (length sample <= 2)%nat
          /\ (columns df <> [] -> sample = firstn 2 (readAll fs))
          /\ Forall (fun r => map fst r = columns df) sample).
Proof.
  intros getsize [roster [df|]].
  - split; [reflexivity|]. split; [discriminate|].
    intros df' [= <-]. eexists. split.
    + unfold debug_csv. run. rewrite readAll_stored. cbn [SURVEY_DATA_CSV].
      unfold to_dict_records. rewrite length_map. reflexivity.
    + rewrite readAll_stored. cbn [SURVEY_DATA_CSV].
      unfold to_dict_records, head. cbn [columns rows].
      destruct (Pd.empty df) eqn:He; cbn [negb].
      * split; [simpl; lia|]. split; [|constructor].
        intros Hcols. unfold Pd.empty in He.
        destruct (columns df); [contradiction|].
        destruct (rows df); [reflexivity | discriminate].
      * split.
        { rewrite length_map, length_firstn. lia. }
        split; [intros _; symmetry; apply firstn_map|].
        apply Forall_forall. intros r Hr.
        apply in_map_iff in Hr. destruct Hr as (r0 & <- & _).
        apply keys_of_aligned.
  - split; [reflexivity|]. split; [reflexivity | discriminate].
Qed.

Lemma debug_csv_reports_the_store_witness :
  exists sample,
    outcome (debug_csv (fun _ => 0%nat)) (mkFS None (Some crew)) =
      Return (DebugFile headers 30 sample 0)
    /\ (length sample <= 2)%nat
    /\ sample = firstn 2 (readAll (mkFS None (Some crew))).
Proof.
  destruct (proj2 (proj2 (debug_csv_reports_the_store (fun _ => 0%nat)
                            (mkFS None (Some crew)))) crew eq_refl)
    as (sample & Hrun & Hlen & Hfirst & _).
  exists sample. split; [exact Hrun|]. split; [exact Hlen|].
  apply Hfirst. discriminate.
Defined.

(** ** Downloads of the submissions served *)



